(** * DAPLink: the SWD port lock and the CMSIS-DAP HID packet pipeline

    A shallow embedding of two translation units of the firmware,

    - [source/daplink/interface/swd_lock.c]   (module [SwdLock]),
    - [source/daplink/cmsis-dap/usbd_user_hid.c] (module [Hid]),

    together with the properties their design document states about them.
    C statics become record fields, every C function becomes a function on
    that record, and calls into code outside the two files (the RTX kernel,
    the DAP command handler, the USB stack, [util_assert]) are either section
    variables or events appended to a trace. *)

From Stdlib Require Import ZArith NArith Lia Bool Ascii String.
From stdpp Require Import base tactics option list strings.

Local Open Scope Z_scope.

(* ===================================================================== *)
(** ** The SWD port lock ([swd_lock.c]) *)
(* ===================================================================== *)

Module SwdLock.

(** [char x[n]] arrays and [const char *] arguments are [string]s.  Reading a
    string at its end yields the terminating NUL, so a [string] stands for the
    characters in front of the terminator (or for a whole array when it holds
    no NUL). *)
Definition NUL : ascii := Ascii.zero.

Definition char_at0 (s : string) : ascii :=
  match s with
  | EmptyString => NUL
  | String c _ => c
  end.

Definition advance (s : string) : string :=
  match s with
  | EmptyString => EmptyString
  | String _ s' => s'
  end.

Definition uchar (c : ascii) : Z := Z.of_N (N_of_ascii c).

(** [strncmp] of the C library: compares at most [n] characters, stops behind
    a common NUL, and returns the difference of the first two characters that
    differ (as [unsigned char]). *)
Fixpoint strncmp (s1 s2 : string) (n : nat) : Z :=
  match n with
  | O => 0
  | S n' =>
      let c1 := char_at0 s1 in
      let c2 := char_at0 s2 in
      if Ascii.eqb c1 c2 then
        if Ascii.eqb c1 NUL then 0 else strncmp (advance s1) (advance s2) n'
      else uchar c1 - uchar c2
  end.

(** The first [n] bytes found at a [const char *]: its characters, the
    terminator, and NUL for whatever lies behind the terminator (those bytes
    are never looked at: every read of the copy is an index 0 test or a
    [strncmp]). *)
Fixpoint bytes_at (s : string) (n : nat) : string :=
  match n with
  | O => EmptyString
  | S n' => String (char_at0 s) (bytes_at (advance s) n')
  end.

(** The C string held in an array of [n] characters. *)
Fixpoint cstring (s : string) (n : nat) : string :=
  match n with
  | O => EmptyString
  | S n' =>
      if Ascii.eqb (char_at0 s) NUL then EmptyString
      else String (char_at0 s) (cstring (advance s) n')
  end.

(** No NUL inside: what a C string literal is. *)
Fixpoint nul_free (s : string) : bool :=
  match s with
  | EmptyString => true
  | String c s' => negb (Ascii.eqb c NUL) && nul_free s'
  end.

Section Lock.

(** [SWD_OWNER_NAME_LENGTH] comes from [swd_host.h], which is not part of
    the two files. *)
Variable SWD_OWNER_NAME_LENGTH : nat.

(** The statics of the file. [swd_mutex] records whether the RTX mutex has
    been initialised; waiting on it and releasing it are balanced inside
    [swd_lock_owner] and leave no mark on a sequential run. *)
Record swd_state : Type := SwdState {
  swd_mutex : bool;
  swd_owner : string
}.

(** Statics start zeroed. *)
Definition swd_initial : swd_state :=
  {| swd_mutex := false; swd_owner := bytes_at EmptyString SWD_OWNER_NAME_LENGTH |}.

(** What a call hands back: the [uint8_t] it returns, whether a
    [util_assert] failed on the way ([util.h] is not part of the two files;
    the design document calls a failed assertion "a fault"), and the
    statics afterwards. *)
Record lock_result : Type := LockResult {
  ret_code : Z;
  fault : bool;
  swd_post : swd_state
}.

Definition swd_is_locked (st : swd_state) : Z :=
  if Ascii.eqb (char_at0 (swd_owner st)) NUL then 0 else 1.

Definition swd_is_locked_owner (st : swd_state) (owner : string) : Z :=
  if (strncmp (swd_owner st) owner SWD_OWNER_NAME_LENGTH =? 0)
     || Ascii.eqb (char_at0 (swd_owner st)) NUL
  then 1 else 0.

Definition rt_mut_init (st : swd_state) : swd_state :=
  {| swd_mutex := true; swd_owner := swd_owner st |}.

Definition memcpy_owner (st : swd_state) (owner : string) : swd_state :=
  {| swd_mutex := swd_mutex st;
     swd_owner := bytes_at owner SWD_OWNER_NAME_LENGTH |}.

(** [swd_lock_owner], with the query of its first line left open, as the
    braces of the file delimit it.  [if (!swd_is_locked())] has no brace of
    its own, so that it governs the statement behind it only, which is
    [if (!swd_mutex) rt_mut_init(&swd_mutex);].  The wait on the mutex, the
    [memcpy] of the caller's name, the release and [return 1] follow without
    a condition, and the brace behind [return 1] closes the function.
    [util_assert(0); return 0;] stand behind that brace, outside the
    function: no call reaches them.  The wait and the release of the RTX
    mutex leave the statics alone. *)
Definition swd_lock_owner_via
    (is_locked_by_owner : swd_state -> string -> Z)
    (st : swd_state) (owner : string) : lock_result :=
  if negb (is_locked_by_owner st owner =? 0) then
    {| ret_code := 1; fault := false; swd_post := st |}
  else
    let st1 :=
      if swd_is_locked st =? 0 then
        (if swd_mutex st then st else rt_mut_init st)
      else st in
    {| ret_code := 1; fault := false; swd_post := memcpy_owner st1 owner |}.

(** The file calls [swd_is_locked_by_owner]; the query on an owner that it
    defines is [swd_is_locked_owner]. *)
Definition swd_lock_owner : swd_state -> string -> lock_result :=
  swd_lock_owner_via swd_is_locked_owner.

Definition swd_unlock (st : swd_state) : lock_result :=
  {| ret_code := 1; fault := false;
     swd_post := {| swd_mutex := swd_mutex st;
                    swd_owner := String NUL (advance (swd_owner st)) |} |}.

Definition swd_unlock_owner (st : swd_state) (owner : string) : lock_result :=
  if strncmp (swd_owner st) owner SWD_OWNER_NAME_LENGTH =? 0 then
    {| ret_code := 1; fault := false; swd_post := swd_post (swd_unlock st) |}
  else
    {| ret_code := 0; fault := true; swd_post := st |}.

(** The name of the current holder, read as a C string out of the array. *)
Definition holder (st : swd_state) : string :=
  cstring (swd_owner st) SWD_OWNER_NAME_LENGTH.

(** An owner name as the design document has it: a C string of bounded
    length. *)
Definition owner_name (s : string) : Prop :=
  nul_free s = true /\ (String.length s <= SWD_OWNER_NAME_LENGTH)%nat.

(** *** Sequences of calls *)

(** What a user of the lock can call, and the results of a sequence of such
    calls, each paired with its call. *)
Inductive api_call : Type :=
  | call_lock_owner (owner : string)
  | call_unlock
  | call_unlock_owner (owner : string).

Definition api_step (st : swd_state) (c : api_call) : lock_result :=
  match c with
  | call_lock_owner o => swd_lock_owner st o
  | call_unlock => swd_unlock st
  | call_unlock_owner o => swd_unlock_owner st o
  end.

Fixpoint api_run (st : swd_state) (cs : list api_call) : list (api_call * lock_result) :=
  match cs with
  | [] => []
  | c :: cs' => (c, api_step st c) :: api_run (swd_post (api_step st c)) cs'
  end.

(** *** The locked wrappers

    [swd_init_lock], [swd_set_target_state_hw_lock],
    [swd_set_target_state_sw_lock], [swd_DAP_ProcessVendorCommand_lock],
    [swd_DAP_ProcessCommand_lock] and [swd_target_set_state_lock] share one
    body: [if (swd_lock(owner)) return f(...); util_assert(0); return 0;].
    The lock they call, [swd_lock], and the operations [f] are defined outside
    the file; [port] stands for all an operation may touch (the wire, the
    target, the caller's response buffer). *)
Variable port : Type.
Variable swd_lock : swd_state -> string -> lock_result.

(** What a wrapper hands back: its return value, the failed assertions (the
    lock's and its own), whether the operation was called, and the lock and
    the port afterwards. *)
Record wrapped : Type := Wrapped {
  w_value : Z;
  w_faults : nat;
  w_called : bool;
  w_lock : swd_state;
  w_port : port
}.

(** The shared body; [width] is the bit width of the wrapper's return
    type, to which the operation's result is converted. *)
Definition locked_call (width : Z) (f : port -> Z * port)
    (st : swd_state) (p : port) (owner : string) : wrapped :=
  let r := swd_lock st owner in
  let lock_faults := if fault r then 1%nat else 0%nat in
  if negb (ret_code r =? 0) then
    {| w_value := (f p).1 mod 2 ^ width; w_faults := lock_faults;
       w_called := true; w_lock := swd_post r; w_port := (f p).2 |}
  else
    {| w_value := 0; w_faults := S lock_faults;
       w_called := false; w_lock := swd_post r; w_port := p |}.

(** The operations behind the wrappers, under the names the file calls them
    by.  [TARGET_RESET_STATE] and the request buffer are plain values here. *)
Variable swd_init : port -> Z * port.
Variable swd_set_target_state_hw_nolock : Z -> port -> Z * port.
Variable wd_set_target_state_sw_nolock : Z -> port -> Z * port.
Variable DAP_ProcessVendorCommand : list Z -> port -> Z * port.
Variable DAP_ProcessCommand : list Z -> port -> Z * port.
Variable target_set_state_lock : Z -> port -> Z * port.

Definition swd_init_lock := locked_call 8 swd_init.

Definition swd_set_target_state_hw_lock (state : Z) :=
  locked_call 8 (swd_set_target_state_hw_nolock state).

Definition swd_set_target_state_sw_lock (state : Z) :=
  locked_call 8 (wd_set_target_state_sw_nolock state).

Definition swd_DAP_ProcessVendorCommand_lock (request : list Z) :=
  locked_call 8 (DAP_ProcessVendorCommand request).

Definition swd_DAP_ProcessCommand_lock (request : list Z) :=
  locked_call 32 (DAP_ProcessCommand request).

Definition swd_target_set_state_lock (state : Z) :=
  locked_call 8 (target_set_state_lock state).

End Lock.

Arguments w_value {port} _.
Arguments w_faults {port} _.
Arguments w_called {port} _.
Arguments w_lock {port} _.
Arguments w_port {port} _.
Arguments locked_call {port} _ _ _ _ _ _.

End SwdLock.

(* ===================================================================== *)
(** ** The CMSIS-DAP HID packet pipeline ([usbd_user_hid.c]) *)
(* ===================================================================== *)

Module Hid.

(** A [uint8_t] buffer. *)
Abbreviation packet := (list Z) (only parsing).

(** What the file takes from headers that are not part of it: the ring
    geometry ([DAP_config.h]), the command identifiers ([DAP.h]), the
    identity this transport uses on the session lock, and the command
    handler.  The handler reads the request, owns state of its own and fills
    the response buffer; it is taken to leave the statics of this file and
    the session lock alone. *)
Class Platform : Type := {
  DAP_PACKET_COUNT : N;
  DAP_PACKET_SIZE : N;
  ID_DAP_Info : Z;
  ID_DAP_Connect : Z;
  ID_DAP_Disconnect : Z;
  ID_DAP_TransferAbort : Z;
  DAP_LOCK_OPERATION_HID_DEBUG : N;
  dap_env : Type;
  DAP_ExecuteCommand : dap_env -> packet -> packet -> dap_env * packet
}.

(** Report types and request kinds of the USB stack, as far as the two
    callbacks tell them apart. *)
Inductive report_type : Type :=
  | HID_REPORT_INPUT
  | HID_REPORT_OUTPUT
  | HID_REPORT_FEATURE
  | HID_REPORT_other.

Inductive request_kind : Type :=
  | USBD_HID_REQ_EP_CTRL
  | USBD_HID_REQ_PERIOD_UPDATE
  | USBD_HID_REQ_EP_INT
  | USBD_HID_REQ_other.

Inductive OS_RESULT : Type :=
  | OS_R_OK
  | OS_R_TMO.

(** Calls that leave the file. *)
Inductive event : Type :=
  | DAP_ExecuteCommand_call (request : packet)
  | main_hid_send_event
  | main_blink_hid_led_off
  | usbd_hid_get_report_trigger (data : packet)
  | util_assert_failed.

(** *** The session lock

    The worker calls [dap_lock_operation], [dap_lock_verify_operation] and
    [dap_unlock_operation]; they are defined outside the two files. *)

(** Modelled from the spec: the session lock is unheld or held by one
    identity. *)
Definition session_lock : Type := option N.

(** Modelled from the spec: [try_acquire] "succeeds if unheld or already held
    by [identity]; otherwise fails, state unchanged". *)
Definition dap_lock_operation (identity : N) (l : session_lock) : bool * session_lock :=
  match l with
  | None => (true, Some identity)
  | Some h => if N.eqb h identity then (true, l) else (false, l)
  end.

(** Modelled from the spec: [verify] is "true iff held by [identity]". *)
Definition dap_lock_verify_operation (identity : N) (l : session_lock) : bool :=
  match l with
  | None => false
  | Some h => N.eqb h identity
  end.

(** Modelled from the spec: [release] is an "unconditional transition to
    unheld; idempotent". *)
Definition dap_unlock_operation (identity : N) (l : session_lock) : session_lock :=
  None.

(** *** Buffers *)

(** [memcpy(dst, src, length src)] for a source that fits the destination:
    its bytes replace the first bytes of [dst] and the rest of [dst] stays.
    The request array is the only destination of a report, and its slots
    have the size of a report: an [#error] stops the build unless
    [USBD_HID_OUTREPORT_MAX_SZ] and [USBD_HID_INREPORT_MAX_SZ] are
    [DAP_PACKET_SIZE].  For a longer source the C call writes on into the
    slot behind, which this function does not do: it is meant for [len] up
    to [DAP_PACKET_SIZE] only. *)
Definition memcpy (dst src : packet) : packet :=
  src ++ drop (length src) dst.

(** [a[i][j]] and [a[i][j] = v] on the request array; a read outside the
    model's lists yields 0 and a write there is lost. *)
Definition slot (a : list packet) (i : N) : packet :=
  default [] (a !! N.to_nat i).

Definition byte_at (a : list packet) (i : N) (j : nat) : Z :=
  default 0 (slot a i !! j).

(** [uint32_t] cursor arithmetic: [(idx + 1) % DAP_PACKET_COUNT]. *)
Definition next_idx (count idx : N) : N :=
  (((idx + 1) mod 4294967296) mod count)%N.

Section Pipeline.

Context {P : Platform}.

(** The statics of the file, the session lock, the abort flag of the DAP
    core and the handler's own state.  [hid_mutex] is taken and released
    inside each operation and is not part of the state between them. *)
Record hid_state : Type := HidState {
  temp_buf : packet;
  USB_Request : list packet;
  free_sem : N;
  proc_sem : N;
  send_sem : N;
  recv_idx : N;
  proc_idx : N;
  send_idx : N;
  USB_ResponseIdle : Z;
  DAP_TransferAbort : Z;
  session : session_lock;
  env : dap_env
}.

Definition set_temp_buf v st :=
  HidState v (USB_Request st) (free_sem st) (proc_sem st) (send_sem st)
    (recv_idx st) (proc_idx st) (send_idx st) (USB_ResponseIdle st)
    (DAP_TransferAbort st) (session st) (env st).
Definition set_USB_Request v st :=
  HidState (temp_buf st) v (free_sem st) (proc_sem st) (send_sem st)
    (recv_idx st) (proc_idx st) (send_idx st) (USB_ResponseIdle st)
    (DAP_TransferAbort st) (session st) (env st).
Definition set_free_sem v st :=
  HidState (temp_buf st) (USB_Request st) v (proc_sem st) (send_sem st)
    (recv_idx st) (proc_idx st) (send_idx st) (USB_ResponseIdle st)
    (DAP_TransferAbort st) (session st) (env st).
Definition set_proc_sem v st :=
  HidState (temp_buf st) (USB_Request st) (free_sem st) v (send_sem st)
    (recv_idx st) (proc_idx st) (send_idx st) (USB_ResponseIdle st)
    (DAP_TransferAbort st) (session st) (env st).
Definition set_send_sem v st :=
  HidState (temp_buf st) (USB_Request st) (free_sem st) (proc_sem st) v
    (recv_idx st) (proc_idx st) (send_idx st) (USB_ResponseIdle st)
    (DAP_TransferAbort st) (session st) (env st).
Definition set_recv_idx v st :=
  HidState (temp_buf st) (USB_Request st) (free_sem st) (proc_sem st) (send_sem st)
    v (proc_idx st) (send_idx st) (USB_ResponseIdle st)
    (DAP_TransferAbort st) (session st) (env st).
Definition set_proc_idx v st :=
  HidState (temp_buf st) (USB_Request st) (free_sem st) (proc_sem st) (send_sem st)
    (recv_idx st) v (send_idx st) (USB_ResponseIdle st)
    (DAP_TransferAbort st) (session st) (env st).
Definition set_send_idx v st :=
  HidState (temp_buf st) (USB_Request st) (free_sem st) (proc_sem st) (send_sem st)
    (recv_idx st) (proc_idx st) v (USB_ResponseIdle st)
    (DAP_TransferAbort st) (session st) (env st).
Definition set_USB_ResponseIdle v st :=
  HidState (temp_buf st) (USB_Request st) (free_sem st) (proc_sem st) (send_sem st)
    (recv_idx st) (proc_idx st) (send_idx st) v
    (DAP_TransferAbort st) (session st) (env st).
Definition set_DAP_TransferAbort v st :=
  HidState (temp_buf st) (USB_Request st) (free_sem st) (proc_sem st) (send_sem st)
    (recv_idx st) (proc_idx st) (send_idx st) (USB_ResponseIdle st)
    v (session st) (env st).
Definition set_session v st :=
  HidState (temp_buf st) (USB_Request st) (free_sem st) (proc_sem st) (send_sem st)
    (recv_idx st) (proc_idx st) (send_idx st) (USB_ResponseIdle st)
    (DAP_TransferAbort st) v (env st).
Definition set_env v st :=
  HidState (temp_buf st) (USB_Request st) (free_sem st) (proc_sem st) (send_sem st)
    (recv_idx st) (proc_idx st) (send_idx st) (USB_ResponseIdle st)
    (DAP_TransferAbort st) (session st) v.

(** *** A state monad that logs the calls leaving the file *)

Definition M (A : Type) : Type := hid_state -> A * hid_state * list event.

Definition ret {A : Type} (a : A) : M A := fun st => (a, st, []).

Definition bind {A B : Type} (m : M A) (k : A -> M B) : M B :=
  fun st =>
    let '(a, st1, ev1) := m st in
    let '(b, st2, ev2) := k a st1 in
    (b, st2, ev1 ++ ev2).

Definition gets {A : Type} (f : hid_state -> A) : M A := fun st => (f st, st, []).
Definition modify (f : hid_state -> hid_state) : M unit := fun st => (tt, f st, []).
Definition emit (e : event) : M unit := fun st => (tt, st, [e]).
Definition when (b : bool) (m : M unit) : M unit := if b then m else ret tt.

Notation "x <- m ;; k" := (bind m (fun x => k))
  (at level 100, m at next level, right associativity).
Notation "m ;;; k" := (bind m (fun _ => k))
  (at level 100, right associativity).

Definition value_of {A : Type} (r : A * hid_state * list event) : A := r.1.1.
Definition state_of {A : Type} (r : A * hid_state * list event) : hid_state := r.1.2.
Definition events_of {A : Type} (r : A * hid_state * list event) : list event := r.2.

(** *** The RTX primitives the file uses *)

(** A counting semaphore of the file is its token count in the state. *)
Record semaphore : Type := Semaphore {
  tokens : hid_state -> N;
  set_tokens : N -> hid_state -> hid_state
}.

Definition the_free_sem : semaphore := Semaphore free_sem set_free_sem.
Definition the_proc_sem : semaphore := Semaphore proc_sem set_proc_sem.
Definition the_send_sem : semaphore := Semaphore send_sem set_send_sem.

(** Modelled from the spec: the kernel is outside the two files; its
    semaphore is "a counting primitive offering non-blocking try-acquire,
    blocking acquire, and release".  This is [os_sem_wait(&s, 0)], the
    try-acquire: it takes a token if there is one and reports a timeout
    otherwise.  The only wait with another timeout is the worker's, which is
    the guard of [hid_process_step] below. *)
Definition os_sem_wait (s : semaphore) : M OS_RESULT :=
  fun st =>
    if (0 <? tokens s st)%N
    then (OS_R_OK, set_tokens s (tokens s st - 1)%N st, [])
    else (OS_R_TMO, st, []).

(** Modelled from the spec: the release of the counting primitive. *)
Definition os_sem_send (s : semaphore) : M unit :=
  modify (fun st => set_tokens s (tokens s st + 1)%N st).

Definition is_OK (r : OS_RESULT) : bool :=
  match r with OS_R_OK => true | OS_R_TMO => false end.

(** Modelled from the spec: [util_assert] is defined outside the two files.
    The design document has a failed assertion report the condition or raise
    a fault, and the C text goes on behind it ([util_assert(0); return 0;]
    in the port lock): the failure is logged and the function continues.
    Where the design document calls the failure fatal, in the send path, no
    step of the system follows it (see [sys_step]). *)
Definition util_assert (expression : bool) : M unit :=
  if expression then ret tt else emit util_assert_failed.

(** *** The file's functions *)

Definition usbd_hid_init : M unit :=
  modify (set_recv_idx 0%N) ;;;
  modify (set_proc_idx 0%N) ;;;
  modify (set_send_idx 0%N) ;;;
  modify (set_USB_ResponseIdle 1) ;;;
  modify (set_free_sem DAP_PACKET_COUNT) ;;;
  modify (set_proc_sem 0%N) ;;;
  modify (set_send_sem 0%N).

(** The statics before [usbd_hid_init]: zeroed memory, no session. *)
Definition zeroed (e : dap_env) : hid_state :=
  {| temp_buf := replicate (N.to_nat DAP_PACKET_SIZE) 0;
     USB_Request := replicate (N.to_nat DAP_PACKET_COUNT)
                      (replicate (N.to_nat DAP_PACKET_SIZE) 0);
     free_sem := 0; proc_sem := 0; send_sem := 0;
     recv_idx := 0; proc_idx := 0; send_idx := 0;
     USB_ResponseIdle := 0; DAP_TransferAbort := 0;
     session := None; env := e |}.

Definition power_on (e : dap_env) : hid_state := state_of (usbd_hid_init (zeroed e)).

(** Returns the [int] of the C function and the caller's buffer. *)
Definition usbd_hid_get_report (rtype : report_type) (rid : Z) (buf : packet)
    (req : request_kind) : M (Z * packet) :=
  match rtype with
  | HID_REPORT_INPUT =>
      match req with
      | USBD_HID_REQ_EP_INT =>
          r <- os_sem_wait the_send_sem ;;
          if is_OK r then
            a <- gets USB_Request ;;
            i <- gets send_idx ;;
            modify (set_send_idx (next_idx DAP_PACKET_COUNT i)) ;;;
            os_sem_send the_free_sem ;;;
            ret (Z.of_N DAP_PACKET_SIZE,
                 memcpy buf (take (N.to_nat DAP_PACKET_SIZE) (slot a i)))
          else
            modify (set_USB_ResponseIdle 1) ;;;
            ret (0, buf)
      | _ => ret (0, buf)
      end
  | _ => ret (0, buf)
  end.

(** [buf] stands for the [len] bytes the transport hands over, a report of
    at most [DAP_PACKET_SIZE] bytes. *)
Definition usbd_hid_set_report (rtype : report_type) (rid : Z) (buf : packet)
    (req : request_kind) : M unit :=
  match rtype with
  | HID_REPORT_OUTPUT =>
      match buf with
      | [] => ret tt
      | b0 :: _ =>
          if b0 =? ID_DAP_TransferAbort then
            modify (set_DAP_TransferAbort 1)
          else
            r <- os_sem_wait the_free_sem ;;
            if is_OK r then
              a <- gets USB_Request ;;
              i <- gets recv_idx ;;
              modify (set_USB_Request (<[N.to_nat i := memcpy (slot a i) buf]> a)) ;;;
              modify (set_recv_idx (next_idx DAP_PACKET_COUNT i)) ;;;
              os_sem_send the_proc_sem
            else
              util_assert false
      end
  | _ => ret tt
  end.

Definition hid_send_packet : M unit :=
  r <- os_sem_wait the_send_sem ;;
  util_assert (is_OK r) ;;;
  a <- gets USB_Request ;;
  i <- gets send_idx ;;
  emit (usbd_hid_get_report_trigger (take (N.to_nat DAP_PACKET_SIZE) (slot a i))) ;;;
  modify (set_send_idx (next_idx DAP_PACKET_COUNT i)) ;;;
  os_sem_send the_free_sem.

(** [proc_idx = (proc_idx + 1) % DAP_PACKET_COUNT; os_sem_send(&send_sem);] *)
Definition complete_processing : M unit :=
  i <- gets proc_idx ;;
  modify (set_proc_idx (next_idx DAP_PACKET_COUNT i)) ;;;
  os_sem_send the_send_sem.

(** The [switch] of the worker. *)
Definition dispatch : M bool :=
  a <- gets USB_Request ;;
  i <- gets proc_idx ;;
  let id := byte_at a i 0 in
  if id =? ID_DAP_Info then
    ret true
  else if id =? ID_DAP_Connect then
    l <- gets session ;;
    let '(ok, l') := dap_lock_operation DAP_LOCK_OPERATION_HID_DEBUG l in
    modify (set_session l') ;;;
    if ok then ret true
    else
      modify (set_USB_Request (<[N.to_nat i := <[1%nat := 0]> (slot a i)]> a)) ;;;
      complete_processing ;;;
      ret false
  else
    l <- gets session ;;
    ret (dap_lock_verify_operation DAP_LOCK_OPERATION_HID_DEBUG l).

(** The [if (run_command)] block. *)
Definition run_the_command : M unit :=
  a <- gets USB_Request ;;
  i <- gets proc_idx ;;
  t <- gets temp_buf ;;
  e <- gets env ;;
  emit (DAP_ExecuteCommand_call (slot a i)) ;;;
  let '(e', t') := DAP_ExecuteCommand e (slot a i) t in
  modify (set_env e') ;;;
  modify (set_temp_buf t') ;;;
  modify (set_USB_Request
            (<[N.to_nat i := memcpy (slot a i) (take (N.to_nat DAP_PACKET_SIZE) t')]> a)) ;;;
  complete_processing ;;;
  a' <- gets USB_Request ;;
  i' <- gets proc_idx ;;
  when (ID_DAP_Disconnect =? byte_at a' i' 0)
    (l <- gets session ;;
     modify (set_session (dap_unlock_operation DAP_LOCK_OPERATION_HID_DEBUG l))).

(** "Send input report if USB is idle". *)
Definition notify_if_idle : M unit :=
  idle <- gets USB_ResponseIdle ;;
  when (negb (idle =? 0))
    (emit main_hid_send_event ;;;
     modify (set_USB_ResponseIdle 0)).

(** The body of the [while (1)] loop behind its [os_sem_wait]. *)
Definition hid_process_body : M unit :=
  run_command <- dispatch ;;
  when run_command run_the_command ;;;
  notify_if_idle ;;;
  emit main_blink_hid_led_off.

(** One turn of the worker loop.  [os_sem_wait(&proc_sem, 0xFFFF)] returns
    only with a token; without one the task stays suspended ([None]). *)
Definition hid_process_step (st : hid_state) : option (unit * hid_state * list event) :=
  if (0 <? proc_sem st)%N
  then Some (hid_process_body (set_proc_sem (proc_sem st - 1)%N st))
  else None.

(** *** The system around the file

    The transport delivers and fetches reports at any time; the worker runs
    a turn whenever a packet is ready; [hid_send_packet] is called by the
    main task under the idle protocol, that is with a reply ready (a call
    without one fails its assertion, which the design document treats as
    fatal: a run ends there); other transports take and drop the session
    lock under identities of their own. *)
Inductive sys_step : hid_state -> list event -> hid_state -> Prop :=
  | step_set_report st rtype rid buf req :
      sys_step st (events_of (usbd_hid_set_report rtype rid buf req st))
                  (state_of (usbd_hid_set_report rtype rid buf req st))
  | step_get_report st rtype rid buf req :
      sys_step st (events_of (usbd_hid_get_report rtype rid buf req st))
                  (state_of (usbd_hid_get_report rtype rid buf req st))
  | step_send_packet st :
      (0 < send_sem st)%N ->
      sys_step st (events_of (hid_send_packet st)) (state_of (hid_send_packet st))
  | step_process st r :
      hid_process_step st = Some r ->
      sys_step st (events_of r) (state_of r)
  | step_other_lock st identity :
      identity <> DAP_LOCK_OPERATION_HID_DEBUG ->
      sys_step st [] (set_session (dap_lock_operation identity (session st)).2 st)
  | step_other_unlock st identity :
      identity <> DAP_LOCK_OPERATION_HID_DEBUG ->
      sys_step st [] (set_session (dap_unlock_operation identity (session st)) st).

Inductive sys_steps : hid_state -> list event -> hid_state -> Prop :=
  | steps_nil st : sys_steps st [] st
  | steps_cons st ev1 st1 ev2 st2 :
      sys_step st ev1 st1 -> sys_steps st1 ev2 st2 ->
      sys_steps st (ev1 ++ ev2) st2.

(** *** Vocabulary of the properties *)

(** The flow-control invariant of the design document. *)
Definition ring_inv (st : hid_state) : Prop :=
  (free_sem st + proc_sem st + send_sem st = DAP_PACKET_COUNT)%N.

Definition is_handler_call (e : event) : bool :=
  match e with DAP_ExecuteCommand_call _ => true | _ => false end.

(** The handler was not invoked. *)
Definition no_handler_call (evs : list event) : Prop :=
  forallb (fun e => negb (is_handler_call e)) evs = true.

(** The command identifier of the packet the worker dequeues next. *)
Definition head_id (st : hid_state) : Z :=
  byte_at (USB_Request st) (proc_idx st) 0.

Definition session_held (st : hid_state) : bool :=
  dap_lock_verify_operation DAP_LOCK_OPERATION_HID_DEBUG (session st).

(** The packets waiting for the worker, oldest first: the [proc_sem]
    slots from the process cursor on. *)
Definition pending (st : hid_state) : list packet :=
  map (fun k => slot (USB_Request st)
                  ((proc_idx st + N.of_nat k) mod DAP_PACKET_COUNT)%N)
      (seq 0 (N.to_nat (proc_sem st))).

(** The slot at the process cursor. *)
Definition head_slot (st : hid_state) : packet :=
  slot (USB_Request st) (proc_idx st).

(** The state behind [complete_processing]. *)
Definition after_completion (st : hid_state) : hid_state :=
  set_send_sem (send_sem st + 1)%N
    (set_proc_idx (next_idx DAP_PACKET_COUNT (proc_idx st)) st).

(** The state behind the handler call and the copy of its response. *)
Definition after_handler (st : hid_state) : hid_state :=
  let r := DAP_ExecuteCommand (env st) (head_slot st) (temp_buf st) in
  set_USB_Request
    (<[N.to_nat (proc_idx st) :=
         memcpy (head_slot st) (take (N.to_nat DAP_PACKET_SIZE) r.2)]> (USB_Request st))
    (set_temp_buf r.2 (set_env r.1 st)).

(** The state behind the whole [if (run_command)] block. *)
Definition after_run (st : hid_state) : hid_state :=
  let st2 := after_completion (after_handler st) in
  if ID_DAP_Disconnect =? head_id st2
  then set_session (dap_unlock_operation DAP_LOCK_OPERATION_HID_DEBUG (session st2)) st2
  else st2.

(** The state behind a refused Connect. *)
Definition after_refusal (st : hid_state) : hid_state :=
  after_completion
    (set_USB_Request
       (<[N.to_nat (proc_idx st) := <[1%nat := 0]> (head_slot st)]> (USB_Request st))
       st).

(** The idle/notify step. *)
Definition idle_events (st : hid_state) : list event :=
  (if USB_ResponseIdle st =? 0 then [] else [main_hid_send_event])
  ++ [main_blink_hid_led_off].

Definition idle_cleared (st : hid_state) : hid_state :=
  if USB_ResponseIdle st =? 0 then st else set_USB_ResponseIdle 0 st.

(** What goes out of the slot at the send cursor, and the state behind a
    successful send. *)
Definition sent_bytes (st : hid_state) : packet :=
  take (N.to_nat DAP_PACKET_SIZE) (slot (USB_Request st) (send_idx st)).

Definition after_send (st : hid_state) : hid_state :=
  set_free_sem (free_sem st + 1)%N
    (set_send_idx (next_idx DAP_PACKET_COUNT (send_idx st))
       (set_send_sem (send_sem st - 1)%N st)).

(** The state behind an accepted report. *)
Definition after_enqueue (buf : packet) (st : hid_state) : hid_state :=
  set_proc_sem (proc_sem st + 1)%N
    (set_recv_idx (next_idx DAP_PACKET_COUNT (recv_idx st))
       (set_USB_Request
          (<[N.to_nat (recv_idx st) :=
               memcpy (slot (USB_Request st) (recv_idx st)) buf]> (USB_Request st))
          (set_free_sem (free_sem st - 1)%N st))).

(** The cursors sit where the counters say, and no more tokens are around
    than there are slots: a shape every state reached from [power_on] has. *)
Record ring_shape (st : hid_state) : Prop := RingShape {
  shape_count : (0 < DAP_PACKET_COUNT < 4294967296)%N;
  shape_slots : length (USB_Request st) = N.to_nat DAP_PACKET_COUNT;
  shape_recv : (recv_idx st < DAP_PACKET_COUNT)%N;
  shape_proc : (proc_idx st < DAP_PACKET_COUNT)%N;
  shape_send : (send_idx st < DAP_PACKET_COUNT)%N;
  shape_free : ((recv_idx st + free_sem st) mod DAP_PACKET_COUNT = send_idx st)%N;
  shape_ready : ((send_idx st + send_sem st) mod DAP_PACKET_COUNT = proc_idx st)%N;
  shape_bound : (free_sem st + proc_sem st + send_sem st <= DAP_PACKET_COUNT)%N
}.

(** [ring_shape] without [mod]. *)
Definition shape_linear (st : hid_state) : Prop :=
  (0 < DAP_PACKET_COUNT < 4294967296)%N
  /\ length (USB_Request st) = N.to_nat DAP_PACKET_COUNT
  /\ (recv_idx st < DAP_PACKET_COUNT)%N
  /\ (proc_idx st < DAP_PACKET_COUNT)%N
  /\ (send_idx st < DAP_PACKET_COUNT)%N
  /\ (recv_idx st + free_sem st = send_idx st
      \/ recv_idx st + free_sem st = send_idx st + DAP_PACKET_COUNT)%N
  /\ (send_idx st + send_sem st = proc_idx st
      \/ send_idx st + send_sem st = proc_idx st + DAP_PACKET_COUNT)%N
  /\ (free_sem st + proc_sem st + send_sem st <= DAP_PACKET_COUNT)%N.

(** A packet stuck at the process cursor: the slot at cursor [p] holds
    [pk], a token has been lost from the counters, no more than [s] replies
    wait to be sent, and this transport does not hold the session lock. *)
Record wedged (p : N) (pk : packet) (s : N) (st : hid_state) : Prop := Wedged {
  wedged_shape : ring_shape st;
  wedged_leak : (free_sem st + proc_sem st + send_sem st < DAP_PACKET_COUNT)%N;
  wedged_cursor : proc_idx st = p;
  wedged_packet : head_slot st = pk;
  wedged_sends : (send_sem st <= s)%N;
  wedged_lock : session_held st = false
}.

(** The replies waiting to be sent, oldest first: the [send_sem] slots from
    the send cursor on. *)
Definition outgoing (st : hid_state) : list packet :=
  map (fun k => slot (USB_Request st)
                  ((send_idx st + N.of_nat k) mod DAP_PACKET_COUNT)%N)
      (seq 0 (N.to_nat (send_sem st))).

(** The transport delivers the reports of a list one after the other. *)
Fixpoint deliver_all (bufs : list packet) (st : hid_state) : hid_state * list event :=
  match bufs with
  | [] => (st, [])
  | buf :: bufs' =>
      let r := usbd_hid_set_report HID_REPORT_OUTPUT 0 buf USBD_HID_REQ_EP_INT st in
      let r' := deliver_all bufs' (state_of r) in
      (r'.1, events_of r ++ r'.2)
  end.

(** A report of full size that is not an abort, and an array whose slots
    have the packet size. *)
Definition full_report (buf : packet) : Prop :=
  length buf = N.to_nat DAP_PACKET_SIZE
  /\ exists b0 rest, buf = b0 :: rest /\ b0 <> ID_DAP_TransferAbort.

Definition slots_sized (st : hid_state) : Prop :=
  Forall (fun s : packet => length s = N.to_nat DAP_PACKET_SIZE) (USB_Request st).

(** The tokens of the three semaphores taken together. *)
Definition token_sum (st : hid_state) : N :=
  (free_sem st + proc_sem st + send_sem st)%N.

(** [count] slots of the array read from cursor [start] on, wrapping round:
    the common shape of [pending] and [outgoing]. *)
Definition window (a : list packet) (start : N) (count : nat) : list packet :=
  map (fun k => slot a ((start + N.of_nat k) mod DAP_PACKET_COUNT)%N) (seq 0 count).

(** What the [switch] of the worker decides for the packet at the process
    cursor: whether the command runs, what becomes of the session lock, and
    whether the packet is dropped without an answer. *)
Definition granted (st : hid_state) : bool :=
  if head_id st =? ID_DAP_Info then true
  else if head_id st =? ID_DAP_Connect
       then (dap_lock_operation DAP_LOCK_OPERATION_HID_DEBUG (session st)).1
       else session_held st.

Definition session_dispatched (st : hid_state) : session_lock :=
  if head_id st =? ID_DAP_Info then session st
  else if head_id st =? ID_DAP_Connect
       then (dap_lock_operation DAP_LOCK_OPERATION_HID_DEBUG (session st)).2
       else session st.

Definition discards (st : hid_state) : bool :=
  negb (head_id st =? ID_DAP_Info) && negb (head_id st =? ID_DAP_Connect)
  && negb (session_held st).

(** The handler's answer to the packet at the process cursor, and the slot
    once that answer has been copied over the request. *)
Definition response_of (st : hid_state) : packet :=
  (DAP_ExecuteCommand (env st) (head_slot st) (temp_buf st)).2.

Definition answered_slot (st : hid_state) : packet :=
  memcpy (head_slot st) (take (N.to_nat DAP_PACKET_SIZE) (response_of st)).

End Pipeline.

End Hid.

(* ===================================================================== *)
(** ** A platform to evaluate on *)
(* ===================================================================== *)

Module Bench.
Import Hid.

(** A stand-in for the command handler: it answers the identifier of the
    request and a zero status byte, and leaves the rest of the response
    buffer as it finds it. *)
Definition sample_handler (e : unit) (request response : list Z) : unit * list Z :=
  (e, <[0%nat := default 0 (request !! 0%nat)]> (<[1%nat := 0]> response)).

(** Four slots of 64 bytes and the identifiers of the CMSIS-DAP protocol. *)
Definition cmsis_dap : Platform := {|
  DAP_PACKET_COUNT := 4;
  DAP_PACKET_SIZE := 64;
  ID_DAP_Info := 0;
  ID_DAP_Connect := 2;
  ID_DAP_Disconnect := 3;
  ID_DAP_TransferAbort := 7;
  DAP_LOCK_OPERATION_HID_DEBUG := 1;
  dap_env := unit;
  DAP_ExecuteCommand := sample_handler
|}.

(** A request: an identifier and 63 bytes of payload, zero here. *)
Definition request (id : Z) : list Z := id :: replicate 63 0.

(** The transport delivers a request. *)
Definition deliver (id : Z) (st : @hid_state cmsis_dap) : @hid_state cmsis_dap :=
  state_of (usbd_hid_set_report HID_REPORT_OUTPUT 0 (request id) USBD_HID_REQ_EP_INT st).

Definition deliver_events (id : Z) (st : @hid_state cmsis_dap) : list event :=
  events_of (usbd_hid_set_report HID_REPORT_OUTPUT 0 (request id) USBD_HID_REQ_EP_INT st).

(** The worker takes a turn, if a packet is ready. *)
Definition turn (st : @hid_state cmsis_dap) : @hid_state cmsis_dap :=
  match hid_process_step st with
  | Some r => state_of r
  | None => st
  end.

Definition turn_events (st : @hid_state cmsis_dap) : list event :=
  match hid_process_step st with
  | Some r => events_of r
  | None => []
  end.

(** The ring right after [usbd_hid_init]. *)
Definition powered : @hid_state cmsis_dap := @power_on cmsis_dap tt.

(** A session opened by this transport: Connect delivered and processed. *)
Definition connected : @hid_state cmsis_dap := turn (deliver 2 powered).

(** Another transport holds the session lock when Connect arrives. *)
Definition contended : @hid_state cmsis_dap :=
  deliver 2 (set_session (Some 2%N) powered).

(** Four Info requests delivered in a row: no slot is free. *)
Definition full : @hid_state cmsis_dap :=
  deliver 0 (deliver 0 (deliver 0 (deliver 0 powered))).


(** A ring whose slots still hold old bytes, 7 everywhere. *)
Definition stale : @hid_state cmsis_dap :=
  set_USB_Request (replicate 4 (replicate 64 7)) powered.

(** The transport fetches a reply. *)
Definition fetch (st : @hid_state cmsis_dap) : @hid_state cmsis_dap :=
  state_of (usbd_hid_get_report HID_REPORT_INPUT 0 [] USBD_HID_REQ_EP_INT st).

End Bench.

(* ===================================================================== *)
(** ** Properties of the SWD port lock *)
(* ===================================================================== *)

Module SwdLockFacts.
Import SwdLock.

Lemma uchar_inj (c1 c2 : ascii) : uchar c1 = uchar c2 -> c1 = c2.
Proof.
  unfold uchar. intros E. apply N2Z.inj in E.
  rewrite <- (ascii_N_embedding c1), <- (ascii_N_embedding c2). now rewrite E.
Qed.

(** [strncmp] answers 0 exactly when the two C strings agree on the first
    [n] characters. *)
Lemma strncmp_zero (n : nat) : forall s1 s2 : string,
  strncmp s1 s2 n = 0 <-> cstring s1 n = cstring s2 n.
Proof.
  induction n as [|n IH]; intros s1 s2; simpl; [tauto|].
  destruct (Ascii.eqb (char_at0 s1) (char_at0 s2)) eqn:E12.
  - apply Ascii.eqb_eq in E12. rewrite <- E12.
    destruct (Ascii.eqb (char_at0 s1) NUL); [tauto|].
    rewrite IH. split; [congruence | now intros [= ->]].
  - apply Ascii.eqb_neq in E12.
    assert (uchar (char_at0 s1) - uchar (char_at0 s2) <> 0) as Hd.
    { intros Hz. apply E12, uchar_inj. lia. }
    split; [tauto|]. intros Heq. exfalso.
    destruct (Ascii.eqb (char_at0 s1) NUL) eqn:E1;
      destruct (Ascii.eqb (char_at0 s2) NUL) eqn:E2; try discriminate.
    + apply Ascii.eqb_eq in E1, E2. congruence.
    + injection Heq as Hc _. now apply E12.
Qed.

Example strncmp_orders : strncmp "abc" "abd" 3 = -1 /\ strncmp "ab" "abc" 3 = -99.
Proof. split; reflexivity. Qed.

Example strncmp_stops_at_n : strncmp "abcdefgh" "abcdefghi" 8 = 0.
Proof. reflexivity. Qed.

Lemma cstring_owner_name (s : string) : forall n : nat,
  nul_free s = true -> (String.length s <= n)%nat -> cstring s n = s.
Proof.
  induction s as [|c s IH]; intros n Hz Hl.
  - destruct n; reflexivity.
  - simpl in Hz, Hl. apply andb_true_iff in Hz as [Hc Hz].
    destruct n as [|n]; [lia|]. simpl.
    apply negb_true_iff in Hc. rewrite Hc. f_equal. apply IH; [assumption | lia].
Qed.

Lemma cstring_bytes_at (n : nat) : forall s : string,
  cstring (bytes_at s n) n = cstring s n.
Proof.
  induction n as [|n IH]; intros s; simpl; [reflexivity|].
  destruct (Ascii.eqb (char_at0 s) NUL); [reflexivity|]. now rewrite IH.
Qed.

Lemma holder_empty_iff (n : nat) (st : swd_state) :
  holder n st = EmptyString <-> (n = O \/ swd_is_locked st = 0).
Proof.
  unfold holder, swd_is_locked. destruct n as [|n]; simpl.
  - split; [now left | reflexivity].
  - destruct (Ascii.eqb (char_at0 (swd_owner st)) NUL).
    + split; [now right | reflexivity].
    + split; [discriminate | intros [|]; discriminate].
Qed.

(** On a port nobody holds, [swd_lock_owner] answers through its first line
    and touches nothing. *)
Lemma swd_lock_owner_unheld (n : nat) (st : swd_state) (owner : string) :
  swd_is_locked st = 0 ->
  swd_lock_owner n st owner = {| ret_code := 1; fault := false; swd_post := st |}.
Proof.
  unfold swd_lock_owner, swd_lock_owner_via, swd_is_locked_owner, swd_is_locked.
  destruct (Ascii.eqb (char_at0 (swd_owner st)) NUL); [|discriminate].
  intros _. now rewrite orb_true_r.
Qed.

(** With a query that answers 0 for a caller who is not the holder, the
    statements behind it do acquire an unheld port: the defect of
    [swd_lock_owner] lies in what [swd_is_locked_owner] answers. *)
Lemma swd_lock_owner_via_acquires (n : nat) (q : swd_state -> string -> Z)
    (st : swd_state) (o : string) :
  q st o = 0 -> swd_is_locked st = 0 -> owner_name n o ->
  ret_code (swd_lock_owner_via n q st o) = 1
  /\ fault (swd_lock_owner_via n q st o) = false
  /\ holder n (swd_post (swd_lock_owner_via n q st o)) = o.
Proof.
  intros Hq Hl [Ho1 Ho2]. unfold swd_lock_owner_via. rewrite Hq, Hl. cbn.
  split; [reflexivity|]. split; [reflexivity|]. unfold holder.
  destruct (swd_mutex st); cbn; rewrite cstring_bytes_at;
    now apply cstring_owner_name.
Qed.

(** The query in closed form. *)
Lemma swd_is_locked_owner_eq (n : nat) (st : swd_state) (o : string) :
  swd_is_locked_owner n st o
  = if swd_is_locked st =? 0 then 1
    else if String.eqb (holder n st) (cstring o n) then 1 else 0.
Proof.
  unfold swd_is_locked_owner, swd_is_locked, holder.
  destruct (Ascii.eqb (char_at0 (swd_owner st)) NUL); [now rewrite orb_true_r|].
  rewrite orb_false_r. cbn.
  pose proof (strncmp_zero n (swd_owner st) o) as Hs.
  destruct (Z.eqb_spec (strncmp (swd_owner st) o n) 0) as [Hz|Hz];
    destruct (String.eqb_spec (cstring (swd_owner st) n) (cstring o n)) as [He|He];
    tauto.
Qed.

Lemma swd_is_locked_values (st : swd_state) :
  swd_is_locked st = 0 \/ swd_is_locked st = 1.
Proof.
  unfold swd_is_locked. destruct (Ascii.eqb (char_at0 (swd_owner st)) NUL); tauto.
Qed.

(** C9.  [swd_is_locked_owner (o)] answers 1 whenever nobody holds the port,
    and also when [o] is the holder; it answers 0 exactly when the port is
    held and the holder's name differs from [o]. *)
Theorem swd_is_locked_owner_answers :
  forall (n : nat) (st : swd_state) (o : string),
    (swd_is_locked st = 0 -> swd_is_locked_owner n st o = 1)
    /\ (holder n st = cstring o n -> swd_is_locked_owner n st o = 1)
    /\ (swd_is_locked_owner n st o = 0 <->
        swd_is_locked st = 1 /\ holder n st <> cstring o n)
    /\ (swd_is_locked_owner n st o = 0 \/ swd_is_locked_owner n st o = 1).
Proof.
  intros n st o. rewrite swd_is_locked_owner_eq.
  destruct (swd_is_locked_values st) as [E|E]; rewrite E; cbn.
  - repeat split; try tauto; try discriminate.
    intros [? _]. discriminate.
  - destruct (String.eqb_spec (holder n st) (cstring o n)) as [He|He];
      repeat split; try tauto; discriminate.
Qed.

(** [swd_lock_owner] in closed form: it has one way out, [return 1], and
    copies the caller's name over the holder exactly when the owner query
    answers 0. *)
Lemma swd_lock_owner_eq (n : nat) (st : swd_state) (o : string) :
  swd_lock_owner n st o
  = {| ret_code := 1; fault := false;
       swd_post := if swd_is_locked_owner n st o =? 0
                   then memcpy_owner n st o else st |}.
Proof.
  unfold swd_lock_owner, swd_lock_owner_via.
  destruct (swd_is_locked_owner n st o =? 0) eqn:Hq; cbn; [|reflexivity].
  apply Z.eqb_eq in Hq. rewrite swd_is_locked_owner_eq in Hq.
  destruct (swd_is_locked_values st) as [Hl|Hl]; rewrite Hl in *; cbn in *;
    [discriminate | reflexivity].
Qed.


(** The bound on the caller's name matters: two names that agree on the
    whole length of the holder array are one owner to [strncmp]. *)
Example long_names_are_one_owner :
  let st := {| swd_mutex := true; swd_owner := bytes_at "abcdefgh" 8 |} in
  holder 8 st = "abcdefgh"%string
  /\ swd_lock_owner 8 st "abcdefghi" = {| ret_code := 1; fault := false; swd_post := st |}.
Proof. split; reflexivity. Qed.

(** C2, evaluated.  On the zeroed statics a call for "hid" reports success,
    yet the port is still unheld and has no holder, and a following call for
    "msc" reports success as well. *)
Theorem swd_lock_owner_unheld_does_not_acquire :
  let st0 := swd_initial 8 in
  let r1 := swd_lock_owner 8 st0 "hid" in
  let r2 := swd_lock_owner 8 (swd_post r1) "msc" in
  swd_is_locked st0 = 0
  /\ ret_code r1 = 1
  /\ swd_is_locked (swd_post r1) = 0
  /\ holder 8 (swd_post r1) = EmptyString
  /\ ret_code r2 = 1 /\ fault r2 = false.
Proof. vm_compute. repeat split. Qed.

(** *** The rest of the lock's interface *)

Lemma swd_is_locked_owner_values (n : nat) (st : swd_state) (o : string) :
  swd_is_locked_owner n st o = 0 \/ swd_is_locked_owner n st o = 1.
Proof.
  unfold swd_is_locked_owner.
  destruct ((strncmp (swd_owner st) o n =? 0)
            || Ascii.eqb (char_at0 (swd_owner st)) NUL); tauto.
Qed.

(** X1.  [swd_lock_owner] never refuses: whatever the state and the caller
    it returns 1 and fails no assertion.  Where the owner query answers
    non-zero (nobody holds the port, or the caller's name is the holder's:
    the call is reentrant) it changes nothing; where the query answers 0
    (another name holds the port) it copies the caller's name over the
    holder's and leaves the mutex flag alone. *)
Theorem swd_lock_owner_never_refuses :
  forall (n : nat) (st : swd_state) (o : string),
    let r := swd_lock_owner n st o in
    ret_code r = 1 /\ fault r = false
    /\ (swd_is_locked_owner n st o <> 0 -> swd_post r = st)
    /\ (holder n st = cstring o n -> swd_post r = st)
    /\ (swd_is_locked_owner n st o = 0 ->
        swd_owner (swd_post r) = bytes_at o n
        /\ holder n (swd_post r) = cstring o n
        /\ swd_mutex (swd_post r) = swd_mutex st).
Proof.
  intros n st o r. subst r. rewrite swd_lock_owner_eq. cbn.
  split; [reflexivity|]. split; [reflexivity|]. split; [|split].
  - intros Hq. now destruct (Z.eqb_spec (swd_is_locked_owner n st o) 0).
  - intros Hh. rewrite swd_is_locked_owner_eq.
    destruct (swd_is_locked st =? 0); [reflexivity|].
    rewrite Hh, String.eqb_refl. reflexivity.
  - intros Hq. rewrite Hq. cbn. split; [reflexivity|]. split; [|reflexivity].
    unfold holder. cbn. apply cstring_bytes_at.
Qed.

Lemma swd_unlock_unheld (n : nat) (st : swd_state) :
  swd_is_locked (swd_post (swd_unlock st)) = 0
  /\ holder n (swd_post (swd_unlock st)) = EmptyString.
Proof.
  split; [reflexivity|]. apply holder_empty_iff. now right.
Qed.

(** X2.  [swd_unlock] asks for no owner and checks none: whatever the state,
    it returns 1 without a fault and leaves the port unheld, keeping the
    characters of the old name behind the first; from then on the owner
    query answers 1 to anybody and so does [swd_lock_owner]. *)
Theorem swd_unlock_frees_for_anybody :
  forall (n : nat) (st : swd_state) (o : string),
    let st' := swd_post (swd_unlock st) in
    ret_code (swd_unlock st) = 1 /\ fault (swd_unlock st) = false
    /\ swd_is_locked st' = 0 /\ holder n st' = EmptyString
    /\ advance (swd_owner st') = advance (swd_owner st)
    /\ swd_is_locked_owner n st' o = 1
    /\ swd_lock_owner n st' o = {| ret_code := 1; fault := false; swd_post := st' |}.
Proof.
  intros n st o st'. destruct (swd_unlock_unheld n st) as [Hl Hh].
  repeat split; try assumption.
  - rewrite swd_is_locked_owner_eq. subst st'. now rewrite Hl.
  - apply swd_lock_owner_unheld. exact Hl.
Qed.

(** X3.  [swd_unlock_owner] succeeds exactly for the name the holder array
    spells: then it returns 1 and the port is unheld; for any other name the
    assertion fails, 0 comes back and nothing changes.  On an unheld port
    this refuses every caller with a name, although the owner query answers
    such a caller 1. *)
Theorem swd_unlock_owner_needs_the_holder :
  forall (n : nat) (st : swd_state) (o : string),
    (holder n st = cstring o n ->
     ret_code (swd_unlock_owner n st o) = 1
     /\ fault (swd_unlock_owner n st o) = false
     /\ swd_is_locked (swd_post (swd_unlock_owner n st o)) = 0)
    /\ (holder n st <> cstring o n ->
        swd_unlock_owner n st o = {| ret_code := 0; fault := true; swd_post := st |})
    /\ (swd_is_locked st = 0 -> cstring o n <> EmptyString ->
        swd_is_locked_owner n st o = 1
        /\ swd_unlock_owner n st o = {| ret_code := 0; fault := true; swd_post := st |}).
Proof.
  intros n st o. unfold swd_unlock_owner.
  pose proof (strncmp_zero n (swd_owner st) o) as Hs. fold (holder n st) in Hs.
  assert (holder n st <> cstring o n ->
          (if strncmp (swd_owner st) o n =? 0
           then {| ret_code := 1; fault := false; swd_post := swd_post (swd_unlock st) |}
           else {| ret_code := 0; fault := true; swd_post := st |})
          = {| ret_code := 0; fault := true; swd_post := st |}) as Hne.
  { intros Hd. destruct (Z.eqb_spec (strncmp (swd_owner st) o n) 0); [tauto | reflexivity]. }
  split; [|split].
  - intros Hh. apply Hs in Hh. rewrite Hh. cbn. repeat split.
  - exact Hne.
  - intros Hl Ho. split.
    + rewrite swd_is_locked_owner_eq, Hl. reflexivity.
    + apply Hne. intros Hh. apply Ho. rewrite <- Hh.
      apply holder_empty_iff. now right.
Qed.

Lemma api_step_unheld (n : nat) (st : swd_state) (c : api_call) :
  swd_is_locked st = 0 -> swd_is_locked (swd_post (api_step n st c)) = 0.
Proof.
  intros Hl. destruct c as [o| |o]; cbn.
  - now rewrite (swd_lock_owner_unheld n st o Hl).
  - reflexivity.
  - unfold swd_unlock_owner.
    destruct (strncmp (swd_owner st) o n =? 0); [reflexivity | exact Hl].
Qed.

Lemma api_run_unheld (n : nat) (cs : list api_call) : forall (st : swd_state),
  swd_is_locked st = 0 ->
  forall c r, In (c, r) (api_run n st cs) ->
    swd_is_locked (swd_post r) = 0
    /\ (forall o, c = call_lock_owner o -> ret_code r = 1 /\ fault r = false).
Proof.
  induction cs as [|c0 cs IH]; intros st Hl c r Hin; [destruct Hin|].
  cbn in Hin. destruct Hin as [[= <- <-]|Hin].
  - split; [now apply api_step_unheld|].
    intros o ->. cbn. now rewrite (swd_lock_owner_unheld n st o Hl).
  - apply (IH (swd_post (api_step n st c0))); [now apply api_step_unheld | exact Hin].
Qed.

(** X4.  Starting from the zeroed statics, no sequence of [swd_lock_owner],
    [swd_unlock] and [swd_unlock_owner] calls ever leaves the port held, and
    every [swd_lock_owner] call in it returns 1 without a fault, whoever
    asks: through this interface no owner is ever recorded and no caller is
    ever kept out. *)
Theorem port_is_never_held :
  forall (n : nat) (cs : list api_call) (c : api_call) (r : lock_result),
    In (c, r) (api_run n (swd_initial n) cs) ->
    swd_is_locked (swd_post r) = 0
    /\ (forall o, c = call_lock_owner o -> ret_code r = 1 /\ fault r = false).
Proof.
  intros n cs c r Hin. apply (api_run_unheld n cs (swd_initial n)); [|exact Hin].
  unfold swd_is_locked, swd_initial. destruct n; reflexivity.
Qed.

Lemma port_is_never_held_witness :
  let cs := [call_lock_owner "hid"; call_lock_owner "msc"; call_unlock_owner "hid"] in
  let r := swd_lock_owner 8 (swd_initial 8) "msc" in
  In (call_lock_owner "msc", r) (api_run 8 (swd_initial 8) cs)
  /\ swd_is_locked (swd_post r) = 0
  /\ ret_code r = 1 /\ fault r = false.
Proof.
  cbn zeta.
  assert (In (call_lock_owner "msc", swd_lock_owner 8 (swd_initial 8) "msc")
            (api_run 8 (swd_initial 8)
               [call_lock_owner "hid"; call_lock_owner "msc"; call_unlock_owner "hid"]))
    as Hin by (right; left; reflexivity).
  split; [exact Hin|].
  destruct (port_is_never_held 8 _ _ _ Hin) as [Hl Hr].
  split; [exact Hl|]. exact (Hr "msc" eq_refl).
Defined.

(** X5.  A locked wrapper touches the port exactly when its lock call
    answers non-zero.  Refused, it does not call the operation, leaves the
    port as it was, fails its own assertion on top of the lock's and returns
    0; granted, it returns the operation's result in the width of its return
    type.  With [swd_lock_owner] as the lock, which answers 1 to every
    caller, a wrapper is never refused: it calls the operation and fails no
    assertion, whoever holds the port. *)
Theorem locked_wrappers_guard_the_port :
  forall (n : nat) (port : Type) (width : Z) (f : port -> Z * port)
         (st : swd_state) (p : port) (o : string),
    (forall swd_lock : swd_state -> string -> lock_result,
        (ret_code (swd_lock st o) = 0 ->
         let w := locked_call swd_lock width f st p o in
         w_called w = false /\ w_port w = p /\ w_value w = 0
         /\ (1 <= w_faults w)%nat)
        /\ (ret_code (swd_lock st o) <> 0 ->
            let w := locked_call swd_lock width f st p o in
            w_called w = true /\ w_port w = (f p).2
            /\ w_value w = (f p).1 mod 2 ^ width))
    /\ locked_call (swd_lock_owner n) width f st p o
       = {| w_value := (f p).1 mod 2 ^ width; w_faults := 0; w_called := true;
            w_lock := swd_post (swd_lock_owner n st o); w_port := (f p).2 |}.
Proof.
  intros n port width f st p o. split.
  - intros swd_lock. split; intros Hr w; subst w; unfold locked_call.
    + rewrite Hr. cbn. repeat split. lia.
    + destruct (Z.eqb_spec (ret_code (swd_lock st o)) 0); [contradiction|].
      cbn. repeat split.
  - unfold locked_call. rewrite swd_lock_owner_eq. reflexivity.
Qed.

End SwdLockFacts.

(* ===================================================================== *)
(** ** Properties of the HID packet pipeline *)
(* ===================================================================== *)

Module HidFacts.
Import Hid.

(** Unfolding the monad down to pairs. *)
Ltac run_monad :=
  unfold hid_process_body, dispatch, run_the_command, notify_if_idle,
    complete_processing, usbd_hid_set_report, usbd_hid_get_report,
    hid_send_packet, usbd_hid_init, os_sem_wait, os_sem_send, util_assert,
    when, bind, ret, gets, modify, emit, state_of, events_of, value_of,
    the_free_sem, the_proc_sem, the_send_sem, head_id, session_held in *;
  cbn [tokens set_tokens fst snd] in *.

Section Facts.

Context {P : Platform}.

(** *** Cursor arithmetic *)

Lemma next_idx_cases (i : N) :
  (i < DAP_PACKET_COUNT)%N -> (DAP_PACKET_COUNT < 4294967296)%N ->
  next_idx DAP_PACKET_COUNT i
  = (if (i + 1 =? DAP_PACKET_COUNT)%N then 0 else i + 1)%N.
Proof.
  intros Hi Hc. unfold next_idx.
  rewrite (N.mod_small (i + 1)) by lia.
  destruct (N.eqb_spec (i + 1) DAP_PACKET_COUNT) as [E|E].
  - rewrite E. apply N.Div0.mod_same.
  - apply N.mod_small. lia.
Qed.

Lemma mod_once (c a b : N) :
  (0 < c)%N -> (a < 2 * c)%N -> (b < c)%N ->
  ((a mod c = b)%N <-> (a = b \/ a = b + c)%N).
Proof.
  intros Hc Ha Hb. destruct (N.lt_ge_cases a c) as [Hlt|Hge].
  - rewrite N.mod_small by assumption. lia.
  - assert (a mod c = a - c)%N as ->.
    { symmetry. apply (N.mod_unique a c 1); lia. }
    lia.
Qed.

(** *** The three branches of a worker turn *)

Lemma complete_processing_eq (st : hid_state) :
  complete_processing st = (tt, after_completion st, []).
Proof. reflexivity. Qed.

Lemma run_the_command_eq (st : hid_state) :
  run_the_command st
  = (tt, after_run st, [DAP_ExecuteCommand_call (head_slot st)]).
Proof.
  unfold after_run, after_handler, head_slot. run_monad.
  destruct (DAP_ExecuteCommand (env st) (slot (USB_Request st) (proc_idx st))
              (temp_buf st)) as [e' t'].
  cbn.
  match goal with |- context [if ?b then _ else _] => destruct b end;
    reflexivity.
Qed.

Lemma notify_blink_eq (st : hid_state) :
  bind notify_if_idle (fun _ => emit main_blink_hid_led_off) st
  = (tt, idle_cleared st, idle_events st).
Proof.
  unfold idle_cleared, idle_events. run_monad.
  destruct (USB_ResponseIdle st =? 0); reflexivity.
Qed.

Lemma body_eq (st : hid_state) :
  hid_process_body st
  = (let '(run_command, st1, ev1) := dispatch st in
     let '(_, st2, ev2) := when run_command run_the_command st1 in
     (tt, idle_cleared st2, ev1 ++ ev2 ++ idle_events st2)).
Proof.
  unfold hid_process_body, bind at 1 2.
  destruct (dispatch st) as [[b st1] ev1].
  destruct (when b run_the_command st1) as [[u st2] ev2].
  fold (bind notify_if_idle (fun _ => emit main_blink_hid_led_off)).
  now rewrite notify_blink_eq.
Qed.

Lemma dispatch_info (st : hid_state) :
  head_id st = ID_DAP_Info -> dispatch st = (true, st, []).
Proof.
  intros H. run_monad. now rewrite H, Z.eqb_refl.
Qed.

Lemma dispatch_connect_ok (st : hid_state) :
  head_id st <> ID_DAP_Info -> head_id st = ID_DAP_Connect ->
  (dap_lock_operation DAP_LOCK_OPERATION_HID_DEBUG (session st)).1 = true ->
  dispatch st
  = (true,
     set_session (dap_lock_operation DAP_LOCK_OPERATION_HID_DEBUG (session st)).2 st,
     []).
Proof.
  intros Hi Hc Hl. run_monad.
  destruct (Z.eqb_spec (byte_at (USB_Request st) (proc_idx st) 0) ID_DAP_Info);
    [contradiction|].
  rewrite Hc, Z.eqb_refl. cbn.
  destruct (dap_lock_operation DAP_LOCK_OPERATION_HID_DEBUG (session st)) as [ok l'].
  cbn in *. subst ok. reflexivity.
Qed.

Lemma dispatch_connect_refused (st : hid_state) :
  head_id st <> ID_DAP_Info -> head_id st = ID_DAP_Connect ->
  (dap_lock_operation DAP_LOCK_OPERATION_HID_DEBUG (session st)).1 = false ->
  dispatch st = (false, after_refusal st, []).
Proof.
  intros Hi Hc Hl. unfold after_refusal, after_completion, head_slot. run_monad.
  destruct (Z.eqb_spec (byte_at (USB_Request st) (proc_idx st) 0) ID_DAP_Info);
    [contradiction|].
  rewrite Hc, Z.eqb_refl. cbn.
  destruct (session st) as [h|] eqn:Es; cbn in *; [|discriminate].
  destruct (N.eqb h DAP_LOCK_OPERATION_HID_DEBUG); [discriminate|].
  cbn. destruct st; cbn in *. now subst.
Qed.

Lemma dispatch_default (st : hid_state) :
  head_id st <> ID_DAP_Info -> head_id st <> ID_DAP_Connect ->
  dispatch st = (session_held st, st, []).
Proof.
  intros Hi Hc. run_monad.
  destruct (Z.eqb_spec (byte_at (USB_Request st) (proc_idx st) 0) ID_DAP_Info);
    [contradiction|].
  destruct (Z.eqb_spec (byte_at (USB_Request st) (proc_idx st) 0) ID_DAP_Connect);
    [contradiction|].
  reflexivity.
Qed.

Lemma body_discard (st : hid_state) :
  head_id st <> ID_DAP_Info -> head_id st <> ID_DAP_Connect ->
  session_held st = false ->
  hid_process_body st = (tt, idle_cleared st, idle_events st).
Proof.
  intros Hi Hc Hs. unfold idle_cleared, idle_events. run_monad.
  destruct (Z.eqb_spec (byte_at (USB_Request st) (proc_idx st) 0) ID_DAP_Info);
    [contradiction|].
  destruct (Z.eqb_spec (byte_at (USB_Request st) (proc_idx st) 0) ID_DAP_Connect);
    [contradiction|].
  cbn. rewrite Hs. cbn.
  destruct (USB_ResponseIdle st =? 0); reflexivity.
Qed.

Lemma body_run (st st1 : hid_state) :
  dispatch st = (true, st1, []) ->
  hid_process_body st
  = (tt, idle_cleared (after_run st1),
     DAP_ExecuteCommand_call (head_slot st1) :: idle_events (after_run st1)).
Proof.
  intros Hd. rewrite body_eq, Hd. cbn [when]. now rewrite run_the_command_eq.
Qed.

Lemma body_refused (st : hid_state) :
  head_id st <> ID_DAP_Info -> head_id st = ID_DAP_Connect ->
  (dap_lock_operation DAP_LOCK_OPERATION_HID_DEBUG (session st)).1 = false ->
  hid_process_body st
  = (tt, idle_cleared (after_refusal st), idle_events (after_refusal st)).
Proof.
  intros Hi Hc Hl. rewrite body_eq, (dispatch_connect_refused st Hi Hc Hl).
  reflexivity.
Qed.

(** The guard of a worker turn. *)
Lemma hid_process_step_ready (st : hid_state) :
  (0 < proc_sem st)%N ->
  hid_process_step st
  = Some (hid_process_body (set_proc_sem (proc_sem st - 1)%N st)).
Proof.
  intros H. unfold hid_process_step.
  now destruct (N.ltb_spec 0 (proc_sem st)); [|lia].
Qed.

Lemma hid_process_step_Some (st : hid_state) r :
  hid_process_step st = Some r ->
  (0 < proc_sem st)%N
  /\ r = hid_process_body (set_proc_sem (proc_sem st - 1)%N st).
Proof.
  unfold hid_process_step.
  destruct (N.ltb_spec 0 (proc_sem st)); [|discriminate].
  now intros [= <-].
Qed.

(** *** The send path *)

Lemma hid_send_packet_ready (st : hid_state) :
  (0 < send_sem st)%N ->
  hid_send_packet st
  = (tt, after_send st, [usbd_hid_get_report_trigger (sent_bytes st)]).
Proof.
  intros H. unfold after_send, sent_bytes. run_monad.
  now destruct (N.ltb_spec 0 (send_sem st)); [|lia].
Qed.

Lemma hid_send_packet_empty (st : hid_state) :
  send_sem st = 0%N ->
  hid_send_packet st
  = (tt,
     set_free_sem (free_sem st + 1)%N
       (set_send_idx (next_idx DAP_PACKET_COUNT (send_idx st)) st),
     [util_assert_failed; usbd_hid_get_report_trigger (sent_bytes st)]).
Proof.
  intros H. unfold sent_bytes. run_monad. now rewrite H.
Qed.

Lemma get_report_ready (st : hid_state) (rid : Z) (buf : packet) :
  (0 < send_sem st)%N ->
  usbd_hid_get_report HID_REPORT_INPUT rid buf USBD_HID_REQ_EP_INT st
  = ((Z.of_N DAP_PACKET_SIZE, memcpy buf (sent_bytes st)), after_send st, []).
Proof.
  intros H. unfold after_send, sent_bytes. run_monad.
  now destruct (N.ltb_spec 0 (send_sem st)); [|lia].
Qed.

Lemma get_report_empty (st : hid_state) (rid : Z) (buf : packet) :
  send_sem st = 0%N ->
  usbd_hid_get_report HID_REPORT_INPUT rid buf USBD_HID_REQ_EP_INT st
  = ((0, buf), set_USB_ResponseIdle 1 st, []).
Proof.
  intros H. run_monad. now rewrite H.
Qed.

(** C8.  [hid_send_packet] with nothing ready to send fails its assertion
    before anything else; with a reply ready it takes one [send_sem] token,
    hands the slot at the send cursor to the transport, advances the send
    cursor and returns one token to [free_sem], which is step for step what
    a report request does to the ring, with the same bytes going out. *)
Theorem hid_send_packet_discipline :
  forall (st : hid_state) (rid : Z) (buf : packet),
    (send_sem st = 0%N ->
     exists rest, events_of (hid_send_packet st) = util_assert_failed :: rest)
    /\ ((0 < send_sem st)%N ->
        let st' := state_of (hid_send_packet st) in
        let g := usbd_hid_get_report HID_REPORT_INPUT rid buf USBD_HID_REQ_EP_INT st in
        events_of (hid_send_packet st)
          = [usbd_hid_get_report_trigger
               (take (N.to_nat DAP_PACKET_SIZE) (slot (USB_Request st) (send_idx st)))]
        /\ send_sem st' = (send_sem st - 1)%N
        /\ send_idx st' = next_idx DAP_PACKET_COUNT (send_idx st)
        /\ free_sem st' = (free_sem st + 1)%N
        /\ proc_sem st' = proc_sem st /\ proc_idx st' = proc_idx st
        /\ recv_idx st' = recv_idx st /\ USB_Request st' = USB_Request st
        /\ state_of g = st'
        /\ value_of g
           = (Z.of_N DAP_PACKET_SIZE,
              memcpy buf (take (N.to_nat DAP_PACKET_SIZE)
                            (slot (USB_Request st) (send_idx st))))).
Proof.
  intros st rid buf. split; intros H.
  - rewrite (hid_send_packet_empty st H). eexists. reflexivity.
  - rewrite (hid_send_packet_ready st H), (get_report_ready st rid buf H).
    repeat split.
Qed.

(** *** Fields behind the idle step *)

Lemma idle_cleared_fields (st : hid_state) :
  let st' := idle_cleared st in
  temp_buf st' = temp_buf st /\ USB_Request st' = USB_Request st
  /\ free_sem st' = free_sem st /\ proc_sem st' = proc_sem st
  /\ send_sem st' = send_sem st /\ recv_idx st' = recv_idx st
  /\ proc_idx st' = proc_idx st /\ send_idx st' = send_idx st
  /\ DAP_TransferAbort st' = DAP_TransferAbort st
  /\ session st' = session st /\ env st' = env st
  /\ USB_ResponseIdle st' = 0.
Proof.
  unfold idle_cleared.
  destruct (Z.eqb_spec (USB_ResponseIdle st) 0); cbn; repeat split; assumption.
Qed.

Lemma idle_events_notify (st : hid_state) :
  USB_ResponseIdle st <> 0 ->
  idle_events st = [main_hid_send_event; main_blink_hid_led_off].
Proof.
  intros H. unfold idle_events.
  now destruct (Z.eqb_spec (USB_ResponseIdle st) 0).
Qed.

Lemma idle_events_no_handler (st : hid_state) : no_handler_call (idle_events st).
Proof.
  unfold idle_events, no_handler_call.
  now destruct (USB_ResponseIdle st =? 0).
Qed.

(** Neither the dispatch nor the command block touches the idle flag. *)
Lemma dispatch_idle (st : hid_state) :
  USB_ResponseIdle (state_of (dispatch st)) = USB_ResponseIdle st.
Proof.
  run_monad.
  destruct (byte_at (USB_Request st) (proc_idx st) 0 =? ID_DAP_Info); [reflexivity|].
  destruct (byte_at (USB_Request st) (proc_idx st) 0 =? ID_DAP_Connect); [|reflexivity].
  cbn. destruct (dap_lock_operation DAP_LOCK_OPERATION_HID_DEBUG (session st)) as [[] l'];
    reflexivity.
Qed.

Lemma after_run_idle (st : hid_state) :
  USB_ResponseIdle (after_run st) = USB_ResponseIdle st.
Proof.
  unfold after_run.
  match goal with |- context [if ?b then _ else _] => destruct b end; reflexivity.
Qed.

(** C5.  A Connect packet dequeued while another identity holds the session
    lock: the handler is not called, byte 1 of the slot (the first byte of
    the payload behind the identifier) becomes the failure code 0 with the
    rest of the ring's contents untouched, the process cursor advances and
    one reply is signalled. *)
Theorem refused_connect_is_answered_in_place :
  forall st : hid_state,
    (0 < proc_sem st)%N ->
    ID_DAP_Connect <> ID_DAP_Info ->
    head_id st = ID_DAP_Connect ->
    (dap_lock_operation DAP_LOCK_OPERATION_HID_DEBUG (session st)).1 = false ->
    exists r,
      hid_process_step st = Some r
      /\ no_handler_call (events_of r)
      /\ USB_Request (state_of r)
         = <[N.to_nat (proc_idx st) := <[1%nat := 0]> (head_slot st)]> (USB_Request st)
      /\ ((N.to_nat (proc_idx st) < length (USB_Request st))%nat ->
          (2 <= length (head_slot st))%nat ->
          slot (USB_Request (state_of r)) (proc_idx st) !! 1%nat = Some 0
          /\ slot (USB_Request (state_of r)) (proc_idx st) !! 0%nat
             = Some ID_DAP_Connect)
      /\ proc_idx (state_of r) = next_idx DAP_PACKET_COUNT (proc_idx st)
      /\ send_sem (state_of r) = (send_sem st + 1)%N
      /\ proc_sem (state_of r) = (proc_sem st - 1)%N
      /\ free_sem (state_of r) = free_sem st
      /\ session (state_of r) = session st
      /\ env (state_of r) = env st.
Proof.
  intros st Hp Hids Hc Hl.
  eexists. split; [apply hid_process_step_ready, Hp|].
  set (st0 := set_proc_sem (proc_sem st - 1)%N st).
  rewrite (body_refused st0) by (try exact Hl; unfold head_id in *; cbn; congruence).
  unfold state_of, events_of; cbn [fst snd].
  pose proof (idle_cleared_fields (after_refusal st0))
    as (_ & Hu & Hf & Hps & Hss & _ & Hpi & _ & _ & Hse & He & _).
  rewrite Hu, Hf, Hps, Hss, Hpi, Hse, He.
  split; [apply idle_events_no_handler|].
  split; [reflexivity|].
  split; [|repeat split].
  intros Hlen H2.
  assert (slot (USB_Request (after_refusal st0)) (proc_idx st)
          = <[1%nat := 0]> (head_slot st)) as ->.
  { unfold slot at 1. cbn. now rewrite list_lookup_insert_eq by exact Hlen. }
  split.
  - apply list_lookup_insert_eq. lia.
  - rewrite list_lookup_insert_ne by lia.
    unfold head_id, byte_at, head_slot in *.
    destruct (slot (USB_Request st) (proc_idx st)) as [|b0 tl]; cbn in *; [lia|].
    congruence.
Qed.

(** C10.  Whatever the dispatch decided, a worker turn that finds the idle
    flag set ends by notifying the transport and clearing the flag.  This
    includes the turn that discards its packet: there no reply is
    signalled, so with [send_sem] at 0 the notification goes out with
    nothing to send, and [hid_send_packet] called on that state fails its
    assertion. *)
Theorem notification_fires_in_every_branch :
  forall st : hid_state,
    (0 < proc_sem st)%N ->
    USB_ResponseIdle st <> 0 ->
    exists r,
      hid_process_step st = Some r
      /\ (exists before,
            events_of r = before ++ [main_hid_send_event; main_blink_hid_led_off])
      /\ USB_ResponseIdle (state_of r) = 0
      /\ (head_id st <> ID_DAP_Info -> head_id st <> ID_DAP_Connect ->
          session_held st = false ->
          events_of r = [main_hid_send_event; main_blink_hid_led_off]
          /\ send_sem (state_of r) = send_sem st
          /\ (send_sem st = 0%N ->
              exists rest,
                events_of (hid_send_packet (state_of r))
                = util_assert_failed :: rest)).
Proof.
  intros st Hp Hidle.
  eexists. split; [apply hid_process_step_ready, Hp|].
  set (st0 := set_proc_sem (proc_sem st - 1)%N st).
  assert (USB_ResponseIdle st0 <> 0) as Hidle0 by exact Hidle.
  split; [|split].
  - rewrite body_eq.
    pose proof (dispatch_idle st0) as Hd.
    destruct (dispatch st0) as [[b st1] ev1]. unfold state_of in Hd. cbn in Hd.
    destruct b; cbn [when].
    + rewrite run_the_command_eq. unfold events_of. cbn [snd].
      rewrite idle_events_notify by (rewrite after_run_idle; congruence).
      exists (ev1 ++ [DAP_ExecuteCommand_call (head_slot st1)]).
      now rewrite <- app_assoc.
    + unfold ret, events_of. cbn [snd].
      rewrite idle_events_notify by congruence.
      exists ev1. now rewrite app_nil_l.
  - rewrite body_eq.
    destruct (dispatch st0) as [[b st1] ev1].
    destruct (when b run_the_command st1) as [[u st2] ev2].
    unfold state_of. cbn [fst snd]. apply idle_cleared_fields.
  - intros Hi Hc Hs.
    rewrite (body_discard st0) by assumption.
    unfold state_of, events_of. cbn [fst snd].
    pose proof (idle_cleared_fields st0) as (_ & _ & _ & _ & Hss & _).
    split; [now apply idle_events_notify|].
    split; [exact Hss|].
    intros H0. rewrite hid_send_packet_empty by (rewrite Hss; exact H0).
    eexists. reflexivity.
Qed.

(** On a turn where the session lock is verified and found missing,
    nothing of the ring moves but the token the worker took. *)
Lemma discard_step (st : hid_state) :
  (0 < proc_sem st)%N ->
  head_id st <> ID_DAP_Info -> head_id st <> ID_DAP_Connect ->
  session_held st = false ->
  hid_process_step st
  = Some (tt, idle_cleared (set_proc_sem (proc_sem st - 1)%N st),
          idle_events st).
Proof.
  intros Hp Hi Hc Hs. rewrite hid_process_step_ready by exact Hp.
  now rewrite body_discard.
Qed.

(** *** What each operation can do *)

Lemma set_report_accepts (st : hid_state) (rid b0 : Z) (rest : packet)
    (req : request_kind) :
  b0 <> ID_DAP_TransferAbort -> (0 < free_sem st)%N ->
  usbd_hid_set_report HID_REPORT_OUTPUT rid (b0 :: rest) req st
  = (tt, after_enqueue (b0 :: rest) st, []).
Proof.
  intros Hb Hf. unfold after_enqueue. run_monad.
  destruct (Z.eqb_spec b0 ID_DAP_TransferAbort); [contradiction|].
  now destruct (N.ltb_spec 0 (free_sem st)); [|lia].
Qed.

Lemma set_report_overflow (st : hid_state) (rid b0 : Z) (rest : packet)
    (req : request_kind) :
  b0 <> ID_DAP_TransferAbort -> free_sem st = 0%N ->
  usbd_hid_set_report HID_REPORT_OUTPUT rid (b0 :: rest) req st
  = (tt, st, [util_assert_failed]).
Proof.
  intros Hb Hf. run_monad.
  destruct (Z.eqb_spec b0 ID_DAP_TransferAbort); [contradiction|].
  now rewrite Hf.
Qed.

Lemma set_report_cases (st : hid_state) rtype (rid : Z) (buf : packet) req :
  let r := usbd_hid_set_report rtype rid buf req st in
  no_handler_call (events_of r)
  /\ (state_of r = st
      \/ state_of r = set_DAP_TransferAbort 1 st
      \/ ((0 < free_sem st)%N /\ state_of r = after_enqueue buf st)).
Proof.
  destruct rtype; try (split; [reflexivity | now left]).
  destruct buf as [|b0 rest]; [split; [reflexivity | now left]|].
  destruct (Z.eq_dec b0 ID_DAP_TransferAbort) as [Ha|Ha].
  - cbn. unfold usbd_hid_set_report. rewrite Ha, Z.eqb_refl.
    split; [reflexivity | right; now left].
  - destruct (N.eq_dec (free_sem st) 0%N) as [Hf|Hf].
    + cbn zeta. rewrite set_report_overflow by assumption.
      split; [reflexivity | now left].
    + cbn zeta. rewrite set_report_accepts by (try assumption; lia).
      split; [reflexivity | right; right; split; [lia | reflexivity]].
Qed.

Lemma get_report_cases (st : hid_state) rtype (rid : Z) (buf : packet) req :
  let r := usbd_hid_get_report rtype rid buf req st in
  events_of r = []
  /\ (state_of r = st
      \/ state_of r = set_USB_ResponseIdle 1 st
      \/ ((0 < send_sem st)%N /\ state_of r = after_send st)).
Proof.
  destruct rtype; try (split; [reflexivity | now left]).
  destruct req; try (split; [reflexivity | now left]).
  destruct (N.eq_dec (send_sem st) 0%N) as [Hs|Hs]; cbn zeta.
  - rewrite get_report_empty by assumption. split; [reflexivity | right; now left].
  - rewrite get_report_ready by lia.
    split; [reflexivity | right; right; split; [lia | reflexivity]].
Qed.

(** The three ways a worker turn can go. *)
Lemma process_cases (st : hid_state) r :
  hid_process_step st = Some r ->
  let st0 := set_proc_sem (proc_sem st - 1)%N st in
  (0 < proc_sem st)%N
  /\ ((head_id st <> ID_DAP_Info /\ head_id st <> ID_DAP_Connect
       /\ session_held st = false
       /\ r = (tt, idle_cleared st0, idle_events st0))
      \/ (head_id st = ID_DAP_Connect
          /\ r = (tt, idle_cleared (after_refusal st0),
                  idle_events (after_refusal st0)))
      \/ (exists l,
            (head_id st = ID_DAP_Info \/ head_id st = ID_DAP_Connect
             \/ session_held st = true)
            /\ r = (tt, idle_cleared (after_run (set_session l st0)),
                    DAP_ExecuteCommand_call (head_slot st)
                      :: idle_events (after_run (set_session l st0))))).
Proof.
  intros Hr st0. apply hid_process_step_Some in Hr as [Hp ->].
  fold st0. split; [exact Hp|].
  destruct (Z.eq_dec (head_id st0) ID_DAP_Info) as [Hi|Hi].
  { right; right. exists (session st0). split; [now left|].
    rewrite (body_run st0 st0) by now apply dispatch_info.
    destruct st; reflexivity. }
  destruct (Z.eq_dec (head_id st0) ID_DAP_Connect) as [Hc|Hc].
  { destruct (dap_lock_operation DAP_LOCK_OPERATION_HID_DEBUG (session st0)).1 eqn:Hl.
    - right; right.
      exists (dap_lock_operation DAP_LOCK_OPERATION_HID_DEBUG (session st0)).2.
      split; [right; now left|].
      now rewrite (body_run st0 _ (dispatch_connect_ok st0 Hi Hc Hl)).
    - right; left. split; [exact Hc|]. now apply body_refused. }
  destruct (session_held st0) eqn:Hs.
  - right; right. exists (session st0). split; [right; now right|].
    rewrite (body_run st0 st0)
      by (rewrite (dispatch_default st0 Hi Hc); now rewrite Hs).
    destruct st; reflexivity.
  - left. repeat split; try assumption. now apply body_discard.
Qed.

(** *** The shape of the ring is kept by the whole system *)

Lemma ring_shape_linear (st : hid_state) : ring_shape st <-> shape_linear st.
Proof.
  unfold shape_linear. split.
  - intros [Hc Hl Hr Hp Hs Hf Hy Hb].
    apply mod_once in Hf; [|lia..]. apply mod_once in Hy; [|lia..].
    repeat split; try assumption; lia.
  - intros (Hc & Hl & Hr & Hp & Hs & Hf & Hy & Hb).
    constructor; try assumption; apply mod_once; lia.
Qed.

Ltac shape_arith :=
  rewrite ring_shape_linear in *; unfold shape_linear in *; cbn in *;
  rewrite ?length_insert;
  repeat match goal with
    | |- context [next_idx DAP_PACKET_COUNT ?i] =>
        rewrite (next_idx_cases i) by lia;
        destruct (N.eqb_spec (i + 1) DAP_PACKET_COUNT)
    end;
  lia.

Lemma shape_idle_cleared (st : hid_state) :
  ring_shape st -> ring_shape (idle_cleared st).
Proof.
  unfold idle_cleared. destruct (USB_ResponseIdle st =? 0); [tauto|].
  intros H. shape_arith.
Qed.

Lemma shape_after_enqueue (buf : packet) (st : hid_state) :
  (0 < free_sem st)%N -> ring_shape st -> ring_shape (after_enqueue buf st).
Proof. intros Hf H. shape_arith. Qed.

Lemma shape_after_send (st : hid_state) :
  (0 < send_sem st)%N -> ring_shape st -> ring_shape (after_send st).
Proof. intros Hs H. shape_arith. Qed.

Lemma shape_after_refusal (st : hid_state) :
  (0 < proc_sem st)%N -> ring_shape st ->
  ring_shape (after_refusal (set_proc_sem (proc_sem st - 1)%N st)).
Proof. intros Hp H. shape_arith. Qed.

Lemma shape_after_run (st : hid_state) (l : session_lock) :
  (0 < proc_sem st)%N -> ring_shape st ->
  ring_shape (after_run (set_session l (set_proc_sem (proc_sem st - 1)%N st))).
Proof.
  intros Hp H. unfold after_run.
  match goal with |- context [if ?b then _ else _] => destruct b end;
    shape_arith.
Qed.

Lemma shape_discard (st : hid_state) :
  (0 < proc_sem st)%N -> ring_shape st ->
  ring_shape (set_proc_sem (proc_sem st - 1)%N st).
Proof. intros Hp H. shape_arith. Qed.

Theorem sys_step_shape (st st' : hid_state) (ev : list event) :
  sys_step st ev st' -> ring_shape st -> ring_shape st'.
Proof.
  intros Hstep H. destruct Hstep as
    [st rtype rid buf req | st rtype rid buf req | st Hs | st r Hr
    | st identity Hid | st identity Hid].
  - destruct (set_report_cases st rtype rid buf req) as (_ & [E | [E | [Hf E]]]);
      rewrite E; [assumption | shape_arith | now apply shape_after_enqueue].
  - destruct (get_report_cases st rtype rid buf req) as (_ & [E | [E | [Hs E]]]);
      rewrite E; [assumption | shape_arith | now apply shape_after_send].
  - rewrite hid_send_packet_ready by exact Hs. now apply shape_after_send.
  - destruct (process_cases st r Hr) as (Hp & [(_ & _ & _ & ->) | [(_ & ->) | (l & _ & ->)]]);
      unfold state_of; cbn [fst snd]; apply shape_idle_cleared.
    + now apply shape_discard.
    + now apply shape_after_refusal.
    + now apply shape_after_run.
  - shape_arith.
  - shape_arith.
Qed.

Lemma sys_steps_shape (st st' : hid_state) (ev : list event) :
  sys_steps st ev st' -> ring_shape st -> ring_shape st'.
Proof.
  induction 1 as [|st ev1 st1 ev2 st2 H1 _ IH]; [tauto|].
  intros H. apply IH. eapply sys_step_shape; eassumption.
Qed.

Lemma power_on_shape (e : dap_env) :
  (0 < DAP_PACKET_COUNT < 4294967296)%N ->
  ring_shape (power_on e) /\ ring_inv (power_on e).
Proof.
  intros Hc. split.
  - apply ring_shape_linear. unfold shape_linear, power_on. cbn.
    rewrite length_replicate. lia.
  - unfold ring_inv, power_on. cbn. lia.
Qed.

(** *** A discarded packet stays where it is *)

Lemma no_handler_call_app (ev1 ev2 : list event) :
  no_handler_call ev1 -> no_handler_call ev2 -> no_handler_call (ev1 ++ ev2).
Proof.
  unfold no_handler_call. rewrite forallb_app. intros -> ->. reflexivity.
Qed.

Lemma head_id_slot (st : hid_state) : head_id st = default 0 (head_slot st !! 0%nat).
Proof. reflexivity. Qed.

Lemma wedged_counts (p s : N) (pk : packet) (st st' : hid_state) :
  ring_shape st' ->
  (free_sem st' + proc_sem st' + send_sem st' <= free_sem st + proc_sem st + send_sem st)%N ->
  proc_idx st' = proc_idx st -> head_slot st' = head_slot st ->
  (send_sem st' <= send_sem st)%N -> session_held st' = session_held st ->
  wedged p pk s st -> wedged p pk s st'.
Proof.
  intros Hsh Hsum Hp Hh Hs Hl [W1 W2 W3 W4 W5 W6].
  constructor; try assumption; try congruence; lia.
Qed.

Lemma wedged_enqueue (p s : N) (pk buf : packet) (st : hid_state) :
  (0 < free_sem st)%N -> wedged p pk s st -> wedged p pk s (after_enqueue buf st).
Proof.
  intros Hf W.
  apply (wedged_counts p s pk st); try exact W; try reflexivity; try (cbn; lia).
  - apply shape_after_enqueue; [exact Hf | apply W].
  - destruct W as [W1 W2 _ _ _ _]. unfold head_slot, slot. cbn.
    rewrite list_lookup_insert_ne; [reflexivity|].
    apply ring_shape_linear in W1. unfold shape_linear in W1. lia.
Qed.

Lemma wedged_step (p s : N) (pk : packet) (st st' : hid_state) (ev : list event) :
  default 0 (pk !! 0%nat) <> ID_DAP_Info ->
  default 0 (pk !! 0%nat) <> ID_DAP_Connect ->
  sys_step st ev st' -> wedged p pk s st ->
  wedged p pk s st' /\ no_handler_call ev.
Proof.
  intros Hi Hc Hstep W.
  assert (head_id st <> ID_DAP_Info /\ head_id st <> ID_DAP_Connect) as [Hi' Hc'].
  { rewrite head_id_slot, (wedged_packet _ _ _ _ W). now split. }
  pose proof (wedged_lock _ _ _ _ W) as Hl.
  pose proof (wedged_shape _ _ _ _ W) as Hsh.
  destruct Hstep as
    [st rtype rid buf req | st rtype rid buf req | st Hs | st r Hr
    | st identity Hid | st identity Hid].
  - destruct (set_report_cases st rtype rid buf req) as (Hev & [E | [E | [Hf E]]]);
      (split; [rewrite E | exact Hev]).
    + exact W.
    + apply (wedged_counts p s pk st); try exact W; try reflexivity;
        try (cbn; lia).
      apply ring_shape_linear. apply ring_shape_linear in Hsh. exact Hsh.
    + now apply wedged_enqueue.
  - destruct (get_report_cases st rtype rid buf req) as (Hev & [E | [E | [Hs E]]]);
      (split; [rewrite E | now rewrite Hev]).
    + exact W.
    + apply (wedged_counts p s pk st); try exact W; try reflexivity;
        try (cbn; lia).
      apply ring_shape_linear. apply ring_shape_linear in Hsh. exact Hsh.
    + apply (wedged_counts p s pk st); try exact W; try reflexivity;
        try (cbn; lia).
      now apply shape_after_send.
  - rewrite hid_send_packet_ready by exact Hs.
    unfold state_of, events_of. cbn [fst snd]. split; [|reflexivity].
    apply (wedged_counts p s pk st); try exact W; try reflexivity;
      try (cbn; lia).
    now apply shape_after_send.
  - destruct (process_cases st r Hr)
      as (Hp & [(_ & _ & _ & ->) | [(Hcc & _) | (l & [Hx | [Hx | Hx]] & _)]]);
      try congruence.
    unfold state_of, events_of. cbn [fst snd].
    split; [|apply idle_events_no_handler].
    pose proof (idle_cleared_fields (set_proc_sem (proc_sem st - 1)%N st))
      as (_ & Hu & Hf & Hps & Hss & _ & Hpi & _ & _ & Hse & _ & _).
    apply (wedged_counts p s pk st); try exact W.
    + apply shape_idle_cleared. now apply shape_discard.
    + rewrite Hf, Hps, Hss. cbn. lia.
    + now rewrite Hpi.
    + unfold head_slot. now rewrite Hu, Hpi.
    + rewrite Hss. cbn. lia.
    + unfold session_held. now rewrite Hse.
  - split; [|reflexivity].
    destruct W as [W1 W2 W3 W4 W5 W6]. constructor; try assumption.
    + apply ring_shape_linear. apply ring_shape_linear in W1. exact W1.
    + unfold session_held in *. cbn.
      destruct (session st) as [h|]; cbn; [|now apply N.eqb_neq].
      now destruct (N.eqb h identity).
  - split; [|reflexivity].
    destruct W as [W1 W2 W3 W4 W5 W6]. constructor; try assumption.
    + apply ring_shape_linear. apply ring_shape_linear in W1. exact W1.
    + reflexivity.
Qed.

Lemma wedged_steps (p s : N) (pk : packet) (st st' : hid_state) (ev : list event) :
  default 0 (pk !! 0%nat) <> ID_DAP_Info ->
  default 0 (pk !! 0%nat) <> ID_DAP_Connect ->
  sys_steps st ev st' -> wedged p pk s st ->
  wedged p pk s st' /\ no_handler_call ev.
Proof.
  intros Hi Hc Hsteps. induction Hsteps as [|st ev1 st1 ev2 st2 H1 _ IH].
  - intros W. split; [exact W | reflexivity].
  - intros W. destruct (wedged_step p s pk st st1 ev1 Hi Hc H1 W) as [W1 E1].
    destruct (IH W1) as [W2 E2]. split; [exact W2|].
    now apply no_handler_call_app.
Qed.

(** C4.  A packet that is neither Info-class nor Connect, dequeued while this
    transport does not hold the session lock, is dropped without a trace:
    the turn takes place, the handler is not called, the process cursor and
    [send_sem] stay where they were (no [complete_processing]), and the
    slot keeps the request.  Nor does anything later answer it: however the
    system goes on from a ring in shape, the handler is never called, the
    process cursor never leaves the packet, the slot is never rewritten and
    no reply is ever added to those that were waiting. *)
Theorem unheld_command_is_silently_discarded :
  forall st : hid_state,
    (0 < proc_sem st)%N ->
    head_id st <> ID_DAP_Info -> head_id st <> ID_DAP_Connect ->
    session_held st = false ->
    exists r,
      hid_process_step st = Some r
      /\ no_handler_call (events_of r)
      /\ proc_idx (state_of r) = proc_idx st
      /\ send_sem (state_of r) = send_sem st
      /\ USB_Request (state_of r) = USB_Request st
      /\ temp_buf (state_of r) = temp_buf st
      /\ env (state_of r) = env st
      /\ session (state_of r) = session st
      /\ free_sem (state_of r) = free_sem st
      /\ proc_sem (state_of r) = (proc_sem st - 1)%N
      /\ (ring_shape st ->
          forall (ev : list event) (st2 : hid_state),
            sys_steps (state_of r) ev st2 ->
            no_handler_call ev
            /\ proc_idx st2 = proc_idx st
            /\ head_slot st2 = head_slot st
            /\ (send_sem st2 <= send_sem st)%N
            /\ session_held st2 = false).
Proof.
  intros st Hp Hi Hc Hl.
  eexists. split; [now apply discard_step|].
  unfold state_of, events_of. cbn [fst snd].
  pose proof (idle_cleared_fields (set_proc_sem (proc_sem st - 1)%N st))
    as (Ht & Hu & Hf & Hps & Hss & _ & Hpi & _ & _ & Hse & He & _).
  split; [apply idle_events_no_handler|].
  repeat (split; [assumption|]).
  intros Hsh ev st2 Hsteps.
  assert (wedged (proc_idx st) (head_slot st) (send_sem st)
            (idle_cleared (set_proc_sem (proc_sem st - 1)%N st))) as W.
  { constructor.
    - apply shape_idle_cleared. now apply shape_discard.
    - rewrite Hf, Hps, Hss. cbn.
      apply ring_shape_linear in Hsh. unfold shape_linear in Hsh. lia.
    - exact Hpi.
    - unfold head_slot. now rewrite Hu, Hpi.
    - rewrite Hss. cbn. lia.
    - unfold session_held. now rewrite Hse. }
  destruct (wedged_steps _ _ _ _ _ _ Hi Hc Hsteps W) as [[_ _ W3 W4 W5 W6] Hev].
  repeat split; assumption.
Qed.

(** *** Arrival order *)

Lemma mod_twice (c a : N) :
  (0 < c)%N -> (a < 2 * c)%N ->
  (a mod c = if a <? c then a else a - c)%N.
Proof.
  intros Hc Ha. destruct (N.ltb_spec a c) as [Hlt|Hge].
  - now apply N.mod_small.
  - symmetry. apply (N.mod_unique a c 1); lia.
Qed.

(** An accepted packet goes behind the packets that wait for the worker. *)
Lemma pending_after_enqueue (buf : packet) (st : hid_state) :
  ring_shape st -> ring_inv st -> (0 < free_sem st)%N ->
  pending (after_enqueue buf st)
  = pending st ++ [memcpy (slot (USB_Request st) (recv_idx st)) buf].
Proof.
  intros Hsh Hinv Hf. apply ring_shape_linear in Hsh.
  destruct Hsh as (Hc & Hl & Hr & Hp & Hs & Hfr & Hrd & Hb).
  unfold ring_inv in Hinv. unfold pending. cbn.
  replace (N.to_nat (proc_sem st + 1)) with (S (N.to_nat (proc_sem st))) by lia.
  rewrite seq_S, map_app. cbn. f_equal.
  - apply map_ext_in. intros k Hk. apply in_seq in Hk.
    unfold slot. rewrite list_lookup_insert_ne; [reflexivity|].
    rewrite (mod_twice DAP_PACKET_COUNT (proc_idx st + N.of_nat k)) by lia.
    destruct (N.ltb_spec (proc_idx st + N.of_nat k) DAP_PACKET_COUNT); lia.
  - f_equal. unfold slot.
    replace ((proc_idx st + N.of_nat (N.to_nat (proc_sem st))) mod DAP_PACKET_COUNT)%N
      with (recv_idx st).
    + rewrite list_lookup_insert_eq by lia. reflexivity.
    + rewrite (mod_twice DAP_PACKET_COUNT) by lia.
      destruct (N.ltb_spec (proc_idx st + N.of_nat (N.to_nat (proc_sem st)))
                  DAP_PACKET_COUNT); lia.
Qed.

(** The worker dequeues the oldest of them. *)
Lemma pending_head (st : hid_state) :
  (0 < proc_sem st)%N -> (proc_idx st < DAP_PACKET_COUNT)%N ->
  exists rest, pending st = head_slot st :: rest.
Proof.
  intros Hp Hi. unfold pending, head_slot.
  destruct (N.to_nat (proc_sem st)) as [|k] eqn:Ek; [lia|].
  cbn. rewrite N.add_0_r, N.mod_small by exact Hi. eexists. reflexivity.
Qed.

Lemma memcpy_whole (dst src : packet) :
  length src = length dst -> memcpy dst src = src.
Proof.
  intros H. unfold memcpy. rewrite drop_ge by lia. apply app_nil_r.
Qed.

(** *** The flow-control invariant, step by step *)

(** Every step of the system keeps [free + ready-to-process + ready-to-send]
    at [DAP_PACKET_COUNT], except the worker turn that discards its packet:
    that one takes the [proc_sem] token and gives nothing back. *)
Lemma sys_step_ring_inv (st st' : hid_state) (ev : list event) :
  sys_step st ev st' -> ring_inv st ->
  ring_inv st'
  \/ (head_id st <> ID_DAP_Info /\ head_id st <> ID_DAP_Connect
      /\ session_held st = false
      /\ hid_process_step st = Some (tt, st', ev)
      /\ (free_sem st' + proc_sem st' + send_sem st' + 1 = DAP_PACKET_COUNT)%N).
Proof.
  unfold ring_inv. intros Hstep H. destruct Hstep as
    [st rtype rid buf req | st rtype rid buf req | st Hs | st r Hr
    | st identity Hid | st identity Hid].
  - left.
    destruct (set_report_cases st rtype rid buf req) as (_ & [E | [E | [Hf E]]]);
      rewrite E; cbn; lia.
  - left.
    destruct (get_report_cases st rtype rid buf req) as (_ & [E | [E | [Hs E]]]);
      rewrite E; cbn; lia.
  - left. rewrite hid_send_packet_ready by exact Hs. cbn. lia.
  - destruct (process_cases st r Hr)
      as (Hp & [(Hi & Hc & Hl & E) | [(_ & E) | (l & _ & E)]]).
    + right. repeat (split; [assumption|]). split.
      * rewrite Hr, E. reflexivity.
      * rewrite E. unfold state_of. cbn [fst snd].
        pose proof (idle_cleared_fields (set_proc_sem (proc_sem st - 1)%N st))
          as (_ & _ & Hf & Hps & Hss & _).
        rewrite Hf, Hps, Hss. cbn. lia.
    + left. rewrite E. unfold state_of. cbn [fst snd].
      pose proof (idle_cleared_fields (after_refusal (set_proc_sem (proc_sem st - 1)%N st)))
        as (_ & _ & Hf & Hps & Hss & _).
      rewrite Hf, Hps, Hss. cbn. lia.
    + left. rewrite E. unfold state_of. cbn [fst snd].
      pose proof (idle_cleared_fields
                    (after_run (set_session l (set_proc_sem (proc_sem st - 1)%N st))))
        as (_ & _ & Hf & Hps & Hss & _).
      rewrite Hf, Hps, Hss. unfold after_run.
      match goal with |- context [if ?b then _ else _] => destruct b end;
        cbn; lia.
  - left. cbn. lia.
  - left. cbn. lia.
Qed.

(** *** The unlock behind a command *)

(** The block that runs a command drops the session lock exactly when the
    slot at the cursor it has just advanced to starts with the Disconnect
    identifier; the packet it has executed plays no part. *)
Lemma after_run_session (st : hid_state) :
  session (after_run st)
  = if ID_DAP_Disconnect
       =? byte_at (USB_Request (after_handler st))
                  (next_idx DAP_PACKET_COUNT (proc_idx st)) 0
    then None else session st.
Proof.
  unfold after_run, head_id. cbn.
  match goal with |- context [if ?b then _ else _] => destruct b end;
    reflexivity.
Qed.

(** *** Windows on the ring *)

Lemma pending_window (st : hid_state) :
  pending st = window (USB_Request st) (proc_idx st) (N.to_nat (proc_sem st)).
Proof. reflexivity. Qed.

Lemma outgoing_window (st : hid_state) :
  outgoing st = window (USB_Request st) (send_idx st) (N.to_nat (send_sem st)).
Proof. reflexivity. Qed.

Lemma window_snoc (a : list packet) (s : N) (n : nat) :
  window a s (S n)
  = window a s n ++ [slot a ((s + N.of_nat n) mod DAP_PACKET_COUNT)%N].
Proof. unfold window. now rewrite seq_S, map_app. Qed.

Lemma window_cons (a : list packet) (s : N) (n : nat) :
  window a s (S n)
  = slot a (s mod DAP_PACKET_COUNT)%N
    :: window a ((s + 1) mod DAP_PACKET_COUNT)%N n.
Proof.
  unfold window. cbn [seq map]. rewrite N.add_0_r. f_equal.
  rewrite <- seq_shift, map_map. apply map_ext. intros k.
  rewrite N.Div0.add_mod_idemp_l. f_equal. f_equal. lia.
Qed.

Lemma window_ext (a a' : list packet) (s : N) (n : nat) :
  (forall k, (k < n)%nat ->
     slot a' ((s + N.of_nat k) mod DAP_PACKET_COUNT)%N
     = slot a ((s + N.of_nat k) mod DAP_PACKET_COUNT)%N) ->
  window a' s n = window a s n.
Proof.
  intros H. unfold window. apply map_ext_in. intros k Hk.
  apply in_seq in Hk. apply H. lia.
Qed.

Lemma window_length (a : list packet) (s : N) (n : nat) : length (window a s n) = n.
Proof. unfold window. now rewrite length_map, length_seq. Qed.

Lemma slot_insert_ne (a : list packet) (i j : N) (x : packet) :
  i <> j -> slot (<[N.to_nat i := x]> a) j = slot a j.
Proof.
  intros H. unfold slot. rewrite list_lookup_insert_ne; [reflexivity | lia].
Qed.

Lemma slot_insert_eq (a : list packet) (i : N) (x : packet) :
  (N.to_nat i < length a)%nat -> slot (<[N.to_nat i := x]> a) i = x.
Proof.
  intros H. unfold slot. now rewrite list_lookup_insert_eq.
Qed.

(** A slot written at [i] is outside a window of fewer than
    [DAP_PACKET_COUNT] slots that ends right in front of [i]. *)
Lemma window_insert_behind (a : list packet) (s i : N) (n : nat) (x : packet) :
  (0 < DAP_PACKET_COUNT)%N -> (s < DAP_PACKET_COUNT)%N -> (i < DAP_PACKET_COUNT)%N ->
  (N.of_nat n < DAP_PACKET_COUNT)%N ->
  ((s + N.of_nat n) mod DAP_PACKET_COUNT = i)%N ->
  window (<[N.to_nat i := x]> a) s n = window a s n.
Proof.
  intros Hc Hs Hi Hn Hend. apply window_ext. intros k Hk.
  apply slot_insert_ne. intros E. subst i.
  rewrite (mod_twice DAP_PACKET_COUNT (s + N.of_nat n)) in E by lia.
  rewrite (mod_twice DAP_PACKET_COUNT (s + N.of_nat k)) in E by lia.
  destruct (N.ltb_spec (s + N.of_nat n) DAP_PACKET_COUNT);
    destruct (N.ltb_spec (s + N.of_nat k) DAP_PACKET_COUNT); lia.
Qed.

(** *** A worker turn in closed form *)

Lemma set_session_same (st : hid_state) : set_session (session st) st = st.
Proof. now destruct st. Qed.

Lemma turn_granted (st : hid_state) r :
  hid_process_step st = Some r -> granted st = true ->
  discards st = false
  /\ r = (tt,
          idle_cleared
            (after_run (set_session (session_dispatched st)
                          (set_proc_sem (proc_sem st - 1)%N st))),
          DAP_ExecuteCommand_call (head_slot st)
            :: idle_events
                 (after_run (set_session (session_dispatched st)
                               (set_proc_sem (proc_sem st - 1)%N st)))).
Proof.
  intros Hr Hg. apply hid_process_step_Some in Hr as [Hp ->].
  set (st0 := set_proc_sem (proc_sem st - 1)%N st) in *.
  unfold granted, session_dispatched, discards in *.
  change (head_id st) with (head_id st0) in *.
  change (session st) with (session st0) in *.
  change (session_held st) with (session_held st0) in *.
  change (head_slot st) with (head_slot st0).
  destruct (Z.eqb_spec (head_id st0) ID_DAP_Info) as [Hi|Hi].
  - split; [reflexivity|]. rewrite set_session_same.
    now rewrite (body_run st0 st0) by now apply dispatch_info.
  - destruct (Z.eqb_spec (head_id st0) ID_DAP_Connect) as [Hc|Hc].
    + split; [reflexivity|].
      now rewrite (body_run st0 _ (dispatch_connect_ok st0 Hi Hc Hg)).
    + split; [now rewrite Hg|]. rewrite set_session_same.
      rewrite (body_run st0 st0)
        by (rewrite (dispatch_default st0 Hi Hc); now rewrite Hg).
      reflexivity.
Qed.

Lemma turn_not_granted (st : hid_state) r :
  hid_process_step st = Some r -> granted st = false ->
  session_dispatched st = session st
  /\ ((discards st = true
       /\ r = (tt, idle_cleared (set_proc_sem (proc_sem st - 1)%N st),
               idle_events (set_proc_sem (proc_sem st - 1)%N st)))
      \/ (discards st = false
          /\ r = (tt,
                  idle_cleared (after_refusal (set_proc_sem (proc_sem st - 1)%N st)),
                  idle_events (after_refusal (set_proc_sem (proc_sem st - 1)%N st))))).
Proof.
  intros Hr Hg. apply hid_process_step_Some in Hr as [Hp ->].
  set (st0 := set_proc_sem (proc_sem st - 1)%N st).
  unfold granted, session_dispatched, discards in *.
  change (head_id st) with (head_id st0) in *.
  change (session st) with (session st0) in *.
  change (session_held st) with (session_held st0) in *.
  destruct (Z.eqb_spec (head_id st0) ID_DAP_Info) as [Hi|Hi]; [discriminate|].
  destruct (Z.eqb_spec (head_id st0) ID_DAP_Connect) as [Hc|Hc].
  - split.
    + destruct (session st0) as [h|]; cbn in *; [|discriminate].
      now destruct (N.eqb h DAP_LOCK_OPERATION_HID_DEBUG).
    + right. split; [reflexivity|]. now apply body_refused.
  - split; [reflexivity|]. left. rewrite Hg. split; [reflexivity|].
    now apply body_discard.
Qed.

Lemma after_run_fields (st : hid_state) :
  let st' := after_run st in
  free_sem st' = free_sem st /\ proc_sem st' = proc_sem st
  /\ send_sem st' = (send_sem st + 1)%N /\ recv_idx st' = recv_idx st
  /\ proc_idx st' = next_idx DAP_PACKET_COUNT (proc_idx st)
  /\ send_idx st' = send_idx st
  /\ USB_Request st' = <[N.to_nat (proc_idx st) := answered_slot st]> (USB_Request st)
  /\ DAP_TransferAbort st' = DAP_TransferAbort st
  /\ USB_ResponseIdle st' = USB_ResponseIdle st
  /\ session st'
     = (if ID_DAP_Disconnect =? head_id st' then None else session st).
Proof.
  unfold after_run, head_id. cbn.
  match goal with |- context [if ?b then _ else _] => destruct b eqn:E end;
    cbn; rewrite ?E; repeat split.
Qed.

Lemma idle_events_handler (st : hid_state) :
  existsb is_handler_call (idle_events st) = false.
Proof. unfold idle_events. now destruct (USB_ResponseIdle st =? 0). Qed.

(** X6.  The books of a worker turn.  It takes one [proc_sem] token and never
    touches [free_sem], the receive cursor, the send cursor or any slot but
    the one at the process cursor.  Unless it discards its packet it advances
    the process cursor by one and adds one [send_sem] token; when it discards,
    cursor, [send_sem] and all slots stay.  The handler is called exactly
    when the dispatch grants the command. *)
Theorem worker_turn_accounting :
  forall (st : hid_state) r,
    hid_process_step st = Some r ->
    let st' := state_of r in
    proc_sem st' = (proc_sem st - 1)%N
    /\ free_sem st' = free_sem st
    /\ recv_idx st' = recv_idx st
    /\ send_idx st' = send_idx st
    /\ length (USB_Request st') = length (USB_Request st)
    /\ (forall i, i <> proc_idx st ->
          slot (USB_Request st') i = slot (USB_Request st) i)
    /\ send_sem st' = (send_sem st + (if discards st then 0 else 1))%N
    /\ proc_idx st'
       = (if discards st then proc_idx st
          else next_idx DAP_PACKET_COUNT (proc_idx st))
    /\ (discards st = true -> USB_Request st' = USB_Request st)
    /\ existsb is_handler_call (events_of r) = granted st.
Proof.
  intros st r Hr st'. subst st'.
  set (st0 := set_proc_sem (proc_sem st - 1)%N st).
  destruct (granted st) eqn:Hg.
  - destruct (turn_granted st r Hr Hg) as [Hd ->]. rewrite Hd. fold st0.
    unfold state_of, events_of. cbn [fst snd].
    pose proof (idle_cleared_fields
                  (after_run (set_session (session_dispatched st) st0)))
      as (_ & Hu & Hf & Hps & Hss & Hri & Hpi & Hsi & _).
    pose proof (after_run_fields (set_session (session_dispatched st) st0))
      as (Af & Aps & Ass & Ari & Api & Asi & Au & _).
    rewrite Hu, Hf, Hps, Hss, Hri, Hpi, Hsi, Af, Aps, Ass, Ari, Api, Asi, Au.
    cbn. rewrite length_insert.
    repeat split; try discriminate.
    intros i Hi. now apply slot_insert_ne.
  - destruct (turn_not_granted st r Hr Hg) as (_ & [[Hd ->] | [Hd ->]]);
      rewrite Hd; fold st0; unfold state_of, events_of; cbn [fst snd].
    + pose proof (idle_cleared_fields st0)
        as (_ & Hu & Hf & Hps & Hss & Hri & Hpi & Hsi & _).
      rewrite Hu, Hf, Hps, Hss, Hri, Hpi, Hsi. cbn. rewrite N.add_0_r.
      repeat split. apply idle_events_handler.
    + pose proof (idle_cleared_fields (after_refusal st0))
        as (_ & Hu & Hf & Hps & Hss & Hri & Hpi & Hsi & _).
      rewrite Hu, Hf, Hps, Hss, Hri, Hpi, Hsi. cbn. rewrite length_insert.
      repeat split; try discriminate.
      * intros i Hi. now apply slot_insert_ne.
      * apply idle_events_handler.
Qed.

(** X7.  What a worker turn does to the session lock.  The lock ends up
    released exactly when a command was run and the slot at the cursor the
    turn has advanced to starts with the Disconnect identifier; otherwise it
    is what the dispatch left, which for a Connect on a free lock is this
    transport's identity.  So a Connect acquires the lock only if the next
    slot does not start with Disconnect, and any command releases it if the
    next slot does. *)
Theorem session_follows_the_next_slot :
  forall (st : hid_state) r,
    hid_process_step st = Some r ->
    session (state_of r)
    = (if granted st && (ID_DAP_Disconnect =? head_id (state_of r))
       then None else session_dispatched st)
    /\ (head_id st <> ID_DAP_Info -> head_id st = ID_DAP_Connect ->
        session st = None ->
        session (state_of r)
        = if ID_DAP_Disconnect =? head_id (state_of r)
          then None else Some DAP_LOCK_OPERATION_HID_DEBUG).
Proof.
  intros st r Hr.
  set (st0 := set_proc_sem (proc_sem st - 1)%N st).
  assert (session (state_of r)
          = (if granted st && (ID_DAP_Disconnect =? head_id (state_of r))
             then None else session_dispatched st)) as E.
  { destruct (granted st) eqn:Hg.
    - destruct (turn_granted st r Hr Hg) as [_ ->]. fold st0.
      unfold state_of. cbn [fst snd andb].
      pose proof (idle_cleared_fields
                    (after_run (set_session (session_dispatched st) st0)))
        as (_ & Hu & _ & _ & _ & _ & Hpi & _ & _ & Hse & _).
      pose proof (after_run_fields (set_session (session_dispatched st) st0))
        as (_ & _ & _ & _ & _ & _ & _ & _ & _ & As).
      unfold head_id at 1. rewrite Hu, Hpi, Hse. exact As.
    - destruct (turn_not_granted st r Hr Hg) as (Hsd & [[_ ->] | [_ ->]]);
        fold st0; unfold state_of; cbn [fst snd andb]; rewrite Hsd.
      + now pose proof (idle_cleared_fields st0)
          as (_ & _ & _ & _ & _ & _ & _ & _ & _ & -> & _).
      + now pose proof (idle_cleared_fields (after_refusal st0))
          as (_ & _ & _ & _ & _ & _ & _ & _ & _ & -> & _). }
  split; [exact E|].
  intros Hi Hc Hn. rewrite E. unfold granted, session_dispatched.
  destruct (Z.eqb_spec (head_id st) ID_DAP_Info); [contradiction|].
  rewrite Hc, Z.eqb_refl, Hn. reflexivity.
Qed.

(** *** The two queues *)

Lemma next_idx_mod (i : N) :
  (i < DAP_PACKET_COUNT)%N -> (DAP_PACKET_COUNT < 4294967296)%N ->
  next_idx DAP_PACKET_COUNT i = ((i + 1) mod DAP_PACKET_COUNT)%N.
Proof.
  intros Hi Hc. unfold next_idx. now rewrite (N.mod_small (i + 1)) by lia.
Qed.

(** The state behind a completing turn: the slot at the process cursor has
    become [x], the cursor has advanced and one reply has been signalled. *)
Lemma queues_after_completion (st st' : hid_state) (x : packet) :
  ring_shape st -> (0 < proc_sem st)%N ->
  USB_Request st' = <[N.to_nat (proc_idx st) := x]> (USB_Request st) ->
  proc_idx st' = next_idx DAP_PACKET_COUNT (proc_idx st) ->
  proc_sem st' = (proc_sem st - 1)%N ->
  send_idx st' = send_idx st -> send_sem st' = (send_sem st + 1)%N ->
  pending st' = tl (pending st) /\ outgoing st' = outgoing st ++ [x].
Proof.
  intros Hsh Hp Hu Hpi Hps Hsi Hss. apply ring_shape_linear in Hsh.
  destruct Hsh as (Hc & Hl & Hr & Hi & Hs & Hfr & Hrd & Hb).
  rewrite !pending_window, !outgoing_window, Hu, Hpi, Hps, Hsi, Hss.
  split.
  - destruct (N.to_nat (proc_sem st)) as [|n] eqn:En; [lia|].
    replace (N.to_nat (proc_sem st - 1)) with n by lia.
    rewrite window_cons. cbn [tl]. rewrite next_idx_mod by lia.
    apply window_ext. intros k Hk. apply slot_insert_ne.
    rewrite N.Div0.add_mod_idemp_l.
    rewrite (mod_twice DAP_PACKET_COUNT (proc_idx st + 1 + N.of_nat k)) by lia.
    destruct (N.ltb_spec (proc_idx st + 1 + N.of_nat k) DAP_PACKET_COUNT); lia.
  - replace (N.to_nat (send_sem st + 1)) with (S (N.to_nat (send_sem st))) by lia.
    rewrite window_snoc. f_equal.
    + apply window_insert_behind; try lia.
      rewrite (mod_twice DAP_PACKET_COUNT) by lia.
      destruct (N.ltb_spec (send_idx st + N.of_nat (N.to_nat (send_sem st)))
                  DAP_PACKET_COUNT); lia.
    + f_equal.
      replace ((send_idx st + N.of_nat (N.to_nat (send_sem st))) mod DAP_PACKET_COUNT)%N
        with (proc_idx st).
      * apply slot_insert_eq. lia.
      * rewrite (mod_twice DAP_PACKET_COUNT) by lia.
        destruct (N.ltb_spec (send_idx st + N.of_nat (N.to_nat (send_sem st)))
                    DAP_PACKET_COUNT); lia.
Qed.

(** X8.  Requests leave the waiting queue at its head and replies join the
    reply queue at its tail.  In a ring in shape, a worker turn that does not
    discard removes the oldest waiting packet, leaves the others in order, and
    appends its reply (the handler's answer copied over the request, or the
    request with byte 1 zeroed for a refused Connect) behind the replies
    already waiting.  A discarding turn adds no reply and keeps the packet at
    the head; what falls out of the waiting queue is its newest entry. *)
Theorem worker_turn_moves_the_queues :
  forall (st : hid_state) r,
    ring_shape st ->
    hid_process_step st = Some r ->
    if discards st
    then pending (state_of r) = removelast (pending st)
         /\ outgoing (state_of r) = outgoing st
         /\ head_slot (state_of r) = head_slot st
    else pending (state_of r) = tl (pending st)
         /\ outgoing (state_of r)
            = outgoing st
              ++ [if granted st then answered_slot st
                  else <[1%nat := 0]> (head_slot st)].
Proof.
  intros st r Hsh Hr.
  pose proof (hid_process_step_Some st r Hr) as [Hp _].
  set (st0 := set_proc_sem (proc_sem st - 1)%N st).
  destruct (granted st) eqn:Hg.
  - destruct (turn_granted st r Hr Hg) as [Hd ->]. rewrite Hd. fold st0.
    unfold state_of. cbn [fst snd].
    pose proof (idle_cleared_fields
                  (after_run (set_session (session_dispatched st) st0)))
      as (_ & Hu & _ & Hps & Hss & _ & Hpi & Hsi & _).
    pose proof (after_run_fields (set_session (session_dispatched st) st0))
      as (_ & Aps & Ass & _ & Api & Asi & Au & _).
    apply (queues_after_completion st); try assumption;
      first [ now rewrite Hu, Au | now rewrite Hpi, Api | now rewrite Hps, Aps
            | now rewrite Hsi, Asi | now rewrite Hss, Ass ].
  - destruct (turn_not_granted st r Hr Hg) as (_ & [[Hd ->] | [Hd ->]]);
      rewrite Hd; fold st0; unfold state_of; cbn [fst snd].
    + pose proof (idle_cleared_fields st0)
        as (_ & Hu & _ & Hps & Hss & _ & Hpi & Hsi & _).
      rewrite !pending_window, !outgoing_window. unfold head_slot.
      rewrite Hu, Hps, Hss, Hpi, Hsi. cbn.
      repeat split.
      destruct (N.to_nat (proc_sem st)) as [|n] eqn:En; [lia|].
      replace (N.to_nat (proc_sem st - 1)) with n by lia.
      rewrite window_snoc. symmetry. apply removelast_last.
    + pose proof (idle_cleared_fields (after_refusal st0))
        as (_ & Hu & _ & Hps & Hss & _ & Hpi & Hsi & _).
      apply (queues_after_completion st); try assumption;
        first [ now rewrite Hu | now rewrite Hpi | now rewrite Hps
              | now rewrite Hsi | now rewrite Hss ].
Qed.

(** The state behind a send. *)
Lemma queues_after_send (st : hid_state) :
  ring_shape st -> (0 < send_sem st)%N ->
  outgoing st = slot (USB_Request st) (send_idx st) :: outgoing (after_send st)
  /\ pending (after_send st) = pending st.
Proof.
  intros Hsh Hs. apply ring_shape_linear in Hsh.
  destruct Hsh as (Hc & Hl & Hr & Hi & Hsi & Hfr & Hrd & Hb).
  split; [|reflexivity].
  rewrite !outgoing_window. cbn.
  destruct (N.to_nat (send_sem st)) as [|n] eqn:En; [lia|].
  replace (N.to_nat (send_sem st - 1)) with n by lia.
  rewrite window_cons, next_idx_mod, N.mod_small by lia. reflexivity.
Qed.

(** X9.  Replies go out oldest first.  In a ring in shape with a reply
    ready, a report request on the interrupt endpoint returns the packet size
    and copies the first [DAP_PACKET_SIZE] bytes of the oldest waiting reply
    into the caller's buffer, [hid_send_packet] hands the same bytes to the
    transport, and either way that reply leaves the queue, the others keep
    their order and the waiting requests are not touched. *)
Theorem replies_leave_oldest_first :
  forall (st : hid_state) (rid : Z) (buf : packet),
    ring_shape st -> (0 < send_sem st)%N ->
    let g := usbd_hid_get_report HID_REPORT_INPUT rid buf USBD_HID_REQ_EP_INT st in
    exists (oldest : packet) (others : list packet),
      outgoing st = oldest :: others
      /\ value_of g
         = (Z.of_N DAP_PACKET_SIZE,
            memcpy buf (take (N.to_nat DAP_PACKET_SIZE) oldest))
      /\ events_of g = []
      /\ outgoing (state_of g) = others
      /\ pending (state_of g) = pending st
      /\ events_of (hid_send_packet st)
         = [usbd_hid_get_report_trigger (take (N.to_nat DAP_PACKET_SIZE) oldest)]
      /\ outgoing (state_of (hid_send_packet st)) = others
      /\ pending (state_of (hid_send_packet st)) = pending st.
Proof.
  intros st rid buf Hsh Hs g. subst g.
  destruct (queues_after_send st Hsh Hs) as [Ho Hp].
  rewrite (get_report_ready st rid buf Hs), (hid_send_packet_ready st Hs).
  exists (slot (USB_Request st) (send_idx st)), (outgoing (after_send st)).
  unfold value_of, state_of, events_of, sent_bytes. cbn [fst snd].
  repeat split; assumption.
Qed.

Lemma accepted_report_queue_kept (st : hid_state) (buf : packet) :
  ring_shape st -> (0 < free_sem st)%N ->
  outgoing (after_enqueue buf st) = outgoing st.
Proof.
  intros Hsh Hf. apply ring_shape_linear in Hsh.
  destruct Hsh as (Hc & Hl & Hr & Hp & Hs & Hfr & Hrd & Hbd).
  rewrite !outgoing_window. cbn.
  apply window_ext. intros k Hk. apply slot_insert_ne.
  rewrite (mod_twice DAP_PACKET_COUNT (send_idx st + N.of_nat k)) by lia.
  destruct (N.ltb_spec (send_idx st + N.of_nat k) DAP_PACKET_COUNT); lia.
Qed.

Lemma slot_sized (st : hid_state) (i : N) :
  slots_sized st -> (N.to_nat i < length (USB_Request st))%nat ->
  length (slot (USB_Request st) i) = N.to_nat DAP_PACKET_SIZE.
Proof.
  unfold slots_sized, slot. intros Hz Hi.
  destruct (lookup_lt_is_Some_2 _ _ Hi) as [x Hx]. rewrite Hx. cbn.
  exact (proj1 (Forall_lookup _ _) Hz _ _ Hx).
Qed.

(** A source that fits leaves the destination its size. *)
Lemma memcpy_length (dst src : packet) :
  (length src <= length dst)%nat -> length (memcpy dst src) = length dst.
Proof.
  intros H. unfold memcpy. rewrite length_app, length_drop. lia.
Qed.

(** X10.  An accepted report never lands on a slot that is still in use.
    In a ring in shape (even one that has lost tokens to discarding turns)
    whose slots have the packet size, after a report of no more than the
    packet size has been stored every reply waiting to be sent and every
    request waiting for the worker is the same as before, the waiting queue
    has grown by one entry at its end, and every slot still has the packet
    size. *)
Theorem accepted_report_spares_waiting_slots :
  forall (st : hid_state) (rid b0 : Z) (rest : packet) (req : request_kind),
    ring_shape st -> slots_sized st ->
    (0 < free_sem st)%N -> b0 <> ID_DAP_TransferAbort ->
    (length (b0 :: rest) <= N.to_nat DAP_PACKET_SIZE)%nat ->
    let st' :=
      state_of (usbd_hid_set_report HID_REPORT_OUTPUT rid (b0 :: rest) req st) in
    outgoing st' = outgoing st
    /\ take (length (pending st)) (pending st') = pending st
    /\ length (pending st') = S (length (pending st))
    /\ slots_sized st'.
Proof.
  intros st rid b0 rest req Hsh Hz Hf Hb Hlen st'. subst st'.
  rewrite set_report_accepts by assumption. unfold state_of. cbn [fst snd].
  apply ring_shape_linear in Hsh.
  destruct Hsh as (Hc & Hl & Hr & Hp & Hs & Hfr & Hrd & Hbd).
  assert (slots_sized (after_enqueue (b0 :: rest) st)) as Hz'.
  { unfold slots_sized.
    cbn [after_enqueue USB_Request set_proc_sem set_recv_idx set_USB_Request].
    apply Forall_insert; [exact Hz|].
    assert (length (slot (USB_Request st) (recv_idx st)) = N.to_nat DAP_PACKET_SIZE)
      as Hsz by (apply slot_sized; [exact Hz | lia]).
    rewrite memcpy_length; [exact Hsz | now rewrite Hsz]. }
  rewrite !pending_window, !outgoing_window, !window_length. cbn.
  replace (N.to_nat (proc_sem st + 1)) with (S (N.to_nat (proc_sem st))) by lia.
  split; [|split; [|split]].
  - apply window_ext. intros k Hk. apply slot_insert_ne.
    rewrite (mod_twice DAP_PACKET_COUNT (send_idx st + N.of_nat k)) by lia.
    destruct (N.ltb_spec (send_idx st + N.of_nat k) DAP_PACKET_COUNT); lia.
  - rewrite window_snoc.
    rewrite take_app_length' by (symmetry; apply window_length).
    apply window_ext. intros k Hk. apply slot_insert_ne.
    rewrite (mod_twice DAP_PACKET_COUNT (proc_idx st + N.of_nat k)) by lia.
    destruct (N.ltb_spec (proc_idx st + N.of_nat k) DAP_PACKET_COUNT); lia.
  - reflexivity.
  - exact Hz'.
Qed.

(** X11.  [usbd_hid_init] can be called in any state: afterwards the counters
    add up to the slot count, both queues are empty, the idle flag is set,
    and the ring is in shape if the array has its slots.  It clears no slot
    and leaves the session lock, the abort flag and the handler's state as
    they were, so a session open before the call is open after it. *)
Theorem usbd_hid_init_resets_the_ring :
  forall st : hid_state,
    let st' := state_of (usbd_hid_init st) in
    ring_inv st'
    /\ pending st' = [] /\ outgoing st' = []
    /\ USB_ResponseIdle st' = 1
    /\ events_of (usbd_hid_init st) = []
    /\ USB_Request st' = USB_Request st /\ temp_buf st' = temp_buf st
    /\ session st' = session st /\ DAP_TransferAbort st' = DAP_TransferAbort st
    /\ env st' = env st
    /\ ((0 < DAP_PACKET_COUNT < 4294967296)%N ->
        length (USB_Request st) = N.to_nat DAP_PACKET_COUNT ->
        ring_shape st').
Proof.
  intros st st'. subst st'.
  assert ((0 < DAP_PACKET_COUNT < 4294967296)%N ->
          length (USB_Request st) = N.to_nat DAP_PACKET_COUNT ->
          ring_shape (state_of (usbd_hid_init st))) as Hshape.
  { intros Hc Hl. apply ring_shape_linear. unfold shape_linear. cbn. lia. }
  unfold ring_inv. cbn.
  repeat (split; [first [reflexivity | lia]|]). exact Hshape.
Qed.

(** X12.  What never enters the ring.  A report that starts with the abort
    identifier only sets [DAP_TransferAbort]: it takes no slot and fails no
    assertion, full ring or not.  An empty report, and a report of any type
    other than output, change nothing at all. *)
Theorem reports_that_bypass_the_ring :
  forall (st : hid_state) (rid : Z) (rest buf : packet) (req : request_kind)
         (rtype : report_type),
    usbd_hid_set_report HID_REPORT_OUTPUT rid (ID_DAP_TransferAbort :: rest) req st
    = (tt, set_DAP_TransferAbort 1 st, [])
    /\ usbd_hid_set_report HID_REPORT_OUTPUT rid [] req st = (tt, st, [])
    /\ (rtype <> HID_REPORT_OUTPUT ->
        usbd_hid_set_report rtype rid buf req st = (tt, st, [])).
Proof.
  intros st rid rest buf req rtype. split; [|split].
  - unfold usbd_hid_set_report. now rewrite Z.eqb_refl.
  - reflexivity.
  - intros Ht. destruct rtype; try reflexivity. contradiction.
Qed.


(** X14.  Why the assertion in the send path has to stop the firmware.  If
    [util_assert] returns, [hid_send_packet] called with [send_sem] at 0 still
    hands the slot at the send cursor to the transport, advances the cursor
    and signals [free_sem]; from counters that added up to the slot count it
    leaves one token too many. *)
Theorem send_with_nothing_ready_adds_a_token :
  forall st : hid_state,
    ring_inv st -> send_sem st = 0%N ->
    let st' := state_of (hid_send_packet st) in
    events_of (hid_send_packet st)
    = [util_assert_failed;
       usbd_hid_get_report_trigger
         (take (N.to_nat DAP_PACKET_SIZE) (slot (USB_Request st) (send_idx st)))]
    /\ send_idx st' = next_idx DAP_PACKET_COUNT (send_idx st)
    /\ (free_sem st' + proc_sem st' + send_sem st' = DAP_PACKET_COUNT + 1)%N
    /\ ~ ring_inv st'.
Proof.
  intros st Hinv Hs st'. subst st'. unfold ring_inv in *.
  rewrite (hid_send_packet_empty st Hs).
  unfold events_of, state_of, sent_bytes. cbn. repeat split; lia.
Qed.

(** X15.  A report shorter than a slot overwrites only as many bytes as it
    has: behind them the slot keeps what it held before, which is what the
    handler then reads. *)
Theorem short_report_keeps_the_tail :
  forall (st : hid_state) (rid b0 : Z) (rest : packet) (req : request_kind) (j : nat),
    (0 < free_sem st)%N -> b0 <> ID_DAP_TransferAbort ->
    (N.to_nat (recv_idx st) < length (USB_Request st))%nat ->
    let st' :=
      state_of (usbd_hid_set_report HID_REPORT_OUTPUT rid (b0 :: rest) req st) in
    let stored := slot (USB_Request st') (recv_idx st) in
    ((j < length (b0 :: rest))%nat -> stored !! j = (b0 :: rest) !! j)
    /\ ((length (b0 :: rest) <= j)%nat ->
        stored !! j = slot (USB_Request st) (recv_idx st) !! j).
Proof.
  intros st rid b0 rest req j Hf Hb Hr st' stored. subst stored st'.
  rewrite set_report_accepts by assumption. unfold state_of. cbn [fst snd].
  cbn [after_enqueue USB_Request set_proc_sem set_recv_idx set_USB_Request].
  rewrite slot_insert_eq by exact Hr. unfold memcpy. split; intros Hj.
  - now rewrite lookup_app_l.
  - rewrite lookup_app_r by exact Hj. rewrite lookup_drop. f_equal. lia.
Qed.

(** Every state the system reaches from power-on has the shape. *)
Corollary reachable_shape (e : dap_env) (ev : list event) (st : hid_state) :
  (0 < DAP_PACKET_COUNT < 4294967296)%N ->
  sys_steps (power_on e) ev st -> ring_shape st.
Proof.
  intros Hc Hsteps. eapply sys_steps_shape; [exact Hsteps|].
  now apply power_on_shape.
Qed.

(** X18.  Reports are queued in the order they arrive.  On a ring in shape
    whose counters add up and whose slots have the packet size, a burst of
    full-size reports that fits into the free slots is accepted without a
    failed assertion, and afterwards the packets waiting for the worker are
    those that waited before, followed by the reports of the burst, each
    byte for byte, in their order of arrival. *)
Theorem reports_queue_in_arrival_order :
  forall (bufs : list packet) (st : hid_state),
    ring_shape st -> ring_inv st -> slots_sized st ->
    Forall full_report bufs ->
    (N.of_nat (length bufs) <= free_sem st)%N ->
    let st' := (deliver_all bufs st).1 in
    pending st' = pending st ++ bufs
    /\ (deliver_all bufs st).2 = []
    /\ outgoing st' = outgoing st
    /\ free_sem st' = (free_sem st - N.of_nat (length bufs))%N
    /\ ring_shape st' /\ ring_inv st' /\ slots_sized st'.
Proof.
  induction bufs as [|buf bufs IH]; intros st Hsh Hinv Hz Hall Hfit st'; subst st'.
  - cbn. rewrite app_nil_r, N.sub_0_r.
    repeat (split; [first [reflexivity | assumption]|]). assumption.
  - apply Forall_cons in Hall as [[Hlen (b0 & rest & -> & Hb)] Hall].
    cbn [length] in Hfit.
    assert ((0 < free_sem st)%N) as Hf by lia.
    cbn [deliver_all]. rewrite set_report_accepts by assumption.
    unfold state_of, events_of. cbn [fst snd app].
    set (st1 := after_enqueue (b0 :: rest) st).
    assert (ring_shape st1) as Hsh1 by now apply shape_after_enqueue.
    assert (ring_inv st1) as Hinv1 by (unfold ring_inv in *; cbn; lia).
    assert ((N.to_nat (recv_idx st) < length (USB_Request st))%nat) as Hri.
    { apply ring_shape_linear in Hsh. unfold shape_linear in Hsh. lia. }
    assert (slots_sized st1) as Hz1.
    { unfold slots_sized, st1.
      cbn [after_enqueue USB_Request set_proc_sem set_recv_idx set_USB_Request].
      apply Forall_insert; [exact Hz|].
      rewrite memcpy_whole; [exact Hlen|].
      rewrite (slot_sized st (recv_idx st) Hz Hri). exact Hlen. }
    assert (pending st1 = pending st ++ [b0 :: rest]) as Hp1.
    { unfold st1. rewrite pending_after_enqueue by assumption.
      rewrite memcpy_whole; [reflexivity|].
      rewrite (slot_sized st (recv_idx st) Hz Hri). exact Hlen. }
    assert (outgoing st1 = outgoing st) as Ho1.
    { pose proof (accepted_report_queue_kept st (b0 :: rest) Hsh Hf) as H. exact H. }
    assert ((N.of_nat (length bufs) <= free_sem st1)%N) as Hfit1 by (cbn; lia).
    destruct (IH st1 Hsh1 Hinv1 Hz1 Hall Hfit1) as (Hp & He & Ho & Hfr & Hs & Hi & Hzz).
    rewrite Hp, He, Ho, Hfr, Hp1, Ho1, <- app_assoc. cbn [app length].
    split; [reflexivity|]. split; [reflexivity|]. split; [reflexivity|].
    split; [cbn; lia|]. split; [assumption|]. split; assumption.
Qed.

(** X16.  The ring stays in shape.  From [usbd_hid_init] on zeroed statics,
    however reports arrive and are fetched, the worker takes its turns and
    [hid_send_packet] is called with a reply ready, the three cursors stay
    below the slot count, the send cursor trails the receive cursor by the
    free slots and leads the process cursor by the waiting replies (modulo
    the slot count), and requests and replies in the queues never outnumber
    the slots. *)
Theorem ring_stays_in_shape :
  forall (e : dap_env) (ev : list event) (st : hid_state),
    (0 < DAP_PACKET_COUNT < 4294967296)%N ->
    sys_steps (power_on e) ev st ->
    ring_shape st
    /\ (recv_idx st < DAP_PACKET_COUNT)%N
    /\ (proc_idx st < DAP_PACKET_COUNT)%N
    /\ (send_idx st < DAP_PACKET_COUNT)%N
    /\ ((recv_idx st + free_sem st) mod DAP_PACKET_COUNT = send_idx st)%N
    /\ ((send_idx st + send_sem st) mod DAP_PACKET_COUNT = proc_idx st)%N
    /\ (length (pending st) + length (outgoing st) <= N.to_nat DAP_PACKET_COUNT)%nat.
Proof.
  intros e ev st Hc Hsteps.
  assert (ring_shape st) as Hsh.
  { eapply sys_steps_shape; [exact Hsteps|]. now apply power_on_shape. }
  split; [exact Hsh|].
  destruct Hsh as [_ _ Hr Hp Hs Hf Hy Hb].
  repeat (split; [assumption|]).
  rewrite pending_window, outgoing_window, !window_length. lia.
Qed.

(** X17.  Tokens are moved, never made, and lost in one place only.  Every
    step of the system leaves the sum of the three semaphores as it was,
    except the worker turn that discards its packet, which lowers it by
    one. *)
Theorem tokens_are_lost_only_by_discarding :
  forall (st st' : hid_state) (ev : list event),
    sys_step st ev st' ->
    token_sum st' = token_sum st
    \/ (discards st = true
        /\ hid_process_step st = Some (tt, st', ev)
        /\ (token_sum st' + 1 = token_sum st)%N).
Proof.
  unfold token_sum. intros st st' ev Hstep. destruct Hstep as
    [st rtype rid buf req | st rtype rid buf req | st Hs | st r Hr
    | st identity Hid | st identity Hid].
  - left.
    destruct (set_report_cases st rtype rid buf req) as (_ & [E | [E | [Hf E]]]);
      rewrite E; cbn; lia.
  - left.
    destruct (get_report_cases st rtype rid buf req) as (_ & [E | [E | [Hs E]]]);
      rewrite E; cbn; lia.
  - left. rewrite hid_send_packet_ready by exact Hs. cbn. lia.
  - pose proof (hid_process_step_Some st r Hr) as [Hp _].
    destruct (granted st) eqn:Hg.
    + left. destruct (turn_granted st r Hr Hg) as [_ ->].
      unfold state_of. cbn [fst snd].
      match goal with |- context [idle_cleared ?x] =>
        pose proof (idle_cleared_fields x) as (_ & _ & Hf & Hps & Hss & _)
      end.
      rewrite Hf, Hps, Hss.
      match goal with |- context [after_run ?x] =>
        pose proof (after_run_fields x) as (Af & Aps & Ass & _)
      end.
      rewrite Af, Aps, Ass. cbn. lia.
    + destruct (turn_not_granted st r Hr Hg) as (_ & [[Hd E] | [Hd E]]).
      * right. split; [exact Hd|]. split; [now rewrite Hr, E|].
        rewrite E. unfold state_of. cbn [fst snd].
        match goal with |- context [idle_cleared ?x] =>
          pose proof (idle_cleared_fields x) as (_ & _ & Hf & Hps & Hss & _)
        end.
        rewrite Hf, Hps, Hss. cbn. lia.
      * left. rewrite E. unfold state_of. cbn [fst snd].
        match goal with |- context [idle_cleared ?x] =>
          pose proof (idle_cleared_fields x) as (_ & _ & Hf & Hps & Hss & _)
        end.
        rewrite Hf, Hps, Hss. cbn. lia.
  - left. cbn. lia.
  - left. cbn. lia.
Qed.

End Facts.

(** *** Evaluations on the bench platform *)

Import Bench.
#[local] Existing Instance cmsis_dap.

(** C1, evaluated.  With four slots, a Disconnect request processed while this
    transport holds the session lock: the handler runs and the reply is
    signalled, yet the lock is still held afterwards, because the slot
    looked at is the next one, which holds zeros. *)
Theorem disconnect_leaves_the_session_locked :
  let st := deliver 3 connected in
  head_id st = ID_DAP_Disconnect
  /\ session_held st = true
  /\ turn_events st = [DAP_ExecuteCommand_call (request 3); main_blink_hid_led_off]
  /\ send_sem (turn st) = (send_sem st + 1)%N
  /\ head_id (turn st) = 0
  /\ session_held (turn st) = true.
Proof. vm_compute. repeat split. Qed.

(** C3, evaluated.  From power-on the counters add up to the slot count and
    still do once a Transfer request (identifier 5) has been accepted; the
    worker turn that discards it, no session being open, leaves 3 + 0 + 0 on
    a ring of 4. *)
Theorem discard_loses_a_token :
  let st1 := deliver 5 powered in
  let st2 := turn st1 in
  ring_inv powered /\ ring_inv st1
  /\ sys_step st1 (turn_events st1) st2
  /\ (free_sem st2, proc_sem st2, send_sem st2) = (3, 0, 0)%N
  /\ ~ ring_inv st2.
Proof.
  cbn zeta. split; [reflexivity|]. split; [reflexivity|]. split; [|split].
  - apply (step_process (deliver 5 powered) (tt, turn (deliver 5 powered),
                                              turn_events (deliver 5 powered))).
    reflexivity.
  - reflexivity.
  - unfold ring_inv. vm_compute. discriminate.
Qed.

Lemma turn_step (st : hid_state) :
  (0 < proc_sem st)%N -> sys_step st (turn_events st) (turn st).
Proof.
  intros H. unfold turn, turn_events.
  rewrite hid_process_step_ready by exact H.
  exact (step_process st _ (hid_process_step_ready st H)).
Qed.

Lemma deliver_step (id : Z) (st : hid_state) :
  sys_step st (deliver_events id st) (deliver id st).
Proof. apply step_set_report. Qed.

Lemma deliver_ready (id : Z) (st : hid_state) :
  id <> 7 -> (0 < free_sem st)%N -> (0 < proc_sem (deliver id st))%N.
Proof.
  intros Hid Hf. unfold deliver, request.
  rewrite set_report_accepts by assumption. cbn. lia.
Qed.

Lemma no_handler_call_app_r (ev1 ev2 : list event) :
  no_handler_call (ev1 ++ ev2) -> no_handler_call ev2.
Proof.
  unfold no_handler_call. rewrite forallb_app. now intros [_ ?]%andb_true_iff.
Qed.

Lemma unheld_command_is_silently_discarded_witness :
  let st := deliver 5 powered in
  ((0 < proc_sem st)%N /\ head_id st <> ID_DAP_Info /\ head_id st <> ID_DAP_Connect
   /\ session_held st = false)
  /\ exists r,
       hid_process_step st = Some r
       /\ no_handler_call (events_of r)
       /\ proc_idx (state_of r) = proc_idx st
       /\ send_sem (state_of r) = send_sem st
       /\ USB_Request (state_of r) = USB_Request st
       /\ (let st1 := deliver 2 (state_of r) in
           sys_steps (state_of r) (deliver_events 2 (state_of r) ++ turn_events st1 ++ [])
             (turn st1)
           /\ no_handler_call (turn_events st1)
           /\ proc_idx (turn st1) = proc_idx st
           /\ head_slot (turn st1) = request 5
           /\ session_held (turn st1) = false).
Proof.
  cbn zeta.
  assert ((0 < proc_sem (deliver 5 powered))%N) as H1 by (vm_compute; reflexivity).
  assert (head_id (deliver 5 powered) <> ID_DAP_Info) as H2 by (vm_compute; lia).
  assert (head_id (deliver 5 powered) <> ID_DAP_Connect) as H3 by (vm_compute; lia).
  assert (session_held (deliver 5 powered) = false) as H4 by reflexivity.
  split; [repeat split; assumption|].
  destruct (unheld_command_is_silently_discarded (deliver 5 powered) H1 H2 H3 H4)
    as (r & Hr & Hev & Hp & Hs & Hu & _ & _ & _ & Hf & _ & Hever).
  exists r. repeat (split; [assumption|]).
  assert (ring_shape (deliver 5 powered)) as Hsh
    by (constructor; vm_compute; repeat split; first [reflexivity | discriminate]).
  assert (sys_steps (state_of r)
            (deliver_events 2 (state_of r) ++ turn_events (deliver 2 (state_of r)) ++ [])
            (turn (deliver 2 (state_of r)))) as Hrun.
  { eapply steps_cons; [apply deliver_step|].
    eapply steps_cons; [|apply steps_nil].
    apply turn_step, deliver_ready; [lia|]. rewrite Hf. vm_compute. reflexivity. }
  destruct (Hever Hsh _ _ Hrun) as (Hev2 & Hp2 & Hh2 & _ & Hl2).
  split; [exact Hrun|].
  split; [|repeat split; assumption].
  apply no_handler_call_app_r in Hev2. rewrite app_nil_r in Hev2. exact Hev2.
Defined.

Lemma refused_connect_is_answered_in_place_witness :
  ((0 < proc_sem contended)%N /\ ID_DAP_Connect <> ID_DAP_Info
   /\ head_id contended = ID_DAP_Connect
   /\ (dap_lock_operation DAP_LOCK_OPERATION_HID_DEBUG (session contended)).1 = false)
  /\ exists r,
       hid_process_step contended = Some r
       /\ no_handler_call (events_of r)
       /\ slot (USB_Request (state_of r)) (proc_idx contended) !! 1%nat = Some 0
       /\ proc_idx (state_of r) = next_idx DAP_PACKET_COUNT (proc_idx contended)
       /\ send_sem (state_of r) = (send_sem contended + 1)%N
       /\ session (state_of r) = Some 2%N.
Proof.
  assert ((0 < proc_sem contended)%N) as H1 by (vm_compute; reflexivity).
  assert (ID_DAP_Connect <> ID_DAP_Info) as H2 by (vm_compute; lia).
  assert (head_id contended = ID_DAP_Connect) as H3 by reflexivity.
  assert ((dap_lock_operation DAP_LOCK_OPERATION_HID_DEBUG (session contended)).1
          = false) as H4 by reflexivity.
  split; [repeat split; assumption|].
  destruct (refused_connect_is_answered_in_place contended H1 H2 H3 H4)
    as (r & Hr & Hev & _ & Hb & Hp & Hs & _ & _ & Hl & _).
  exists r. split; [exact Hr|]. split; [exact Hev|].
  split; [apply Hb; vm_compute; lia|].
  split; [exact Hp|]. split; [exact Hs|].
  rewrite Hl. reflexivity.
Defined.

Lemma notification_fires_in_every_branch_witness :
  let st := deliver 5 powered in
  ((0 < proc_sem st)%N /\ USB_ResponseIdle st <> 0)
  /\ exists r,
       hid_process_step st = Some r
       /\ events_of r = [main_hid_send_event; main_blink_hid_led_off]
       /\ USB_ResponseIdle (state_of r) = 0
       /\ send_sem (state_of r) = 0%N
       /\ exists rest,
            events_of (hid_send_packet (state_of r)) = util_assert_failed :: rest.
Proof.
  cbn zeta.
  assert ((0 < proc_sem (deliver 5 powered))%N) as H1 by (vm_compute; reflexivity).
  assert (USB_ResponseIdle (deliver 5 powered) <> 0) as H2 by (vm_compute; lia).
  split; [split; assumption|].
  destruct (notification_fires_in_every_branch (deliver 5 powered) H1 H2)
    as (r & Hr & _ & Hidle & Hd).
  destruct Hd as (Hev & Hs & Ha);
    [vm_compute; lia | vm_compute; lia | reflexivity |].
  exists r. split; [exact Hr|]. split; [exact Hev|]. split; [exact Hidle|].
  split; [rewrite Hs; reflexivity|].
  apply Ha. reflexivity.
Defined.


(** As long as no turn discards, the order is kept: with the ring full of
    Info requests a Transfer request is dropped; after one worker turn and
    one fetched reply a Connect request is accepted and stands last among the
    waiting packets. *)
Example order_after_overflow :
  let st1 := deliver 5 full in
  let st2 := fetch (turn st1) in
  st1 = full
  /\ pending st2 = [request 0; request 0; request 0]
  /\ pending (deliver 2 st2) = [request 0; request 0; request 0; request 2].
Proof. vm_compute. repeat split. Qed.

(** *** Witnesses on the bench platform *)

Lemma ring_shape_info_waiting : ring_shape (deliver 0 powered).
Proof. constructor; vm_compute; repeat split; first [reflexivity | discriminate]. Qed.

Lemma ring_shape_info_answered : ring_shape (turn (deliver 0 powered)).
Proof. constructor; vm_compute; repeat split; first [reflexivity | discriminate]. Qed.

Lemma info_turn :
  hid_process_step (deliver 0 powered)
  = Some (tt, turn (deliver 0 powered), turn_events (deliver 0 powered)).
Proof. vm_compute. reflexivity. Qed.

Lemma worker_turn_accounting_witness :
  let st := deliver 0 powered in
  let r := (tt, turn st, turn_events st) in
  hid_process_step st = Some r
  /\ proc_sem (state_of r) = 0%N
  /\ send_sem (state_of r) = 1%N
  /\ proc_idx (state_of r) = 1%N
  /\ existsb is_handler_call (events_of r) = true.
Proof.
  cbn zeta. split; [exact info_turn|].
  pose proof (worker_turn_accounting _ _ info_turn) as H. cbn zeta in H.
  destruct H as (H1 & _ & _ & _ & _ & _ & H7 & H8 & _ & H10).
  split; [rewrite H1; vm_compute; reflexivity|].
  split; [rewrite H7; vm_compute; reflexivity|].
  split; [rewrite H8; vm_compute; reflexivity|].
  rewrite H10. vm_compute. reflexivity.
Defined.

Lemma session_follows_the_next_slot_witness :
  let st := deliver 0 powered in
  let r := (tt, turn st, turn_events st) in
  hid_process_step st = Some r /\ session (state_of r) = None.
Proof.
  cbn zeta. split; [exact info_turn|].
  destruct (session_follows_the_next_slot _ _ info_turn) as [H _].
  rewrite H. vm_compute. reflexivity.
Defined.

Lemma worker_turn_moves_the_queues_witness :
  let st := deliver 0 powered in
  let r := (tt, turn st, turn_events st) in
  (ring_shape st /\ hid_process_step st = Some r)
  /\ pending (state_of r) = []
  /\ outgoing (state_of r) = [answered_slot st].
Proof.
  cbn zeta. split; [exact (conj ring_shape_info_waiting info_turn)|].
  pose proof (worker_turn_moves_the_queues _ _ ring_shape_info_waiting info_turn) as H.
  assert (discards (deliver 0 powered) = false) as Hd by (vm_compute; reflexivity).
  rewrite Hd in H. destruct H as [H1 H2].
  split; [rewrite H1; vm_compute; reflexivity|].
  rewrite H2. vm_compute. reflexivity.
Defined.

Lemma replies_leave_oldest_first_witness :
  let st := turn (deliver 0 powered) in
  (ring_shape st /\ (0 < send_sem st)%N)
  /\ exists (oldest : list Z) (others : list (list Z)),
       outgoing st = oldest :: others
       /\ outgoing (fetch st) = others
       /\ events_of (hid_send_packet st)
          = [usbd_hid_get_report_trigger (take 64 oldest)].
Proof.
  cbn zeta.
  assert ((0 < send_sem (turn (deliver 0 powered)))%N) as Hs by (vm_compute; reflexivity).
  split; [exact (conj ring_shape_info_answered Hs)|].
  destruct (replies_leave_oldest_first _ 0 [] ring_shape_info_answered Hs)
    as (oldest & others & H1 & _ & _ & H4 & _ & H6 & _).
  exists oldest, others. split; [exact H1|]. split; [exact H4 | exact H6].
Defined.

Lemma slots_sized_info_answered : slots_sized (turn (deliver 0 powered)).
Proof. vm_compute. repeat constructor. Qed.

Lemma accepted_report_spares_waiting_slots_witness :
  let st := turn (deliver 0 powered) in
  (ring_shape st /\ slots_sized st /\ (0 < free_sem st)%N
   /\ 2 <> ID_DAP_TransferAbort
   /\ (length (2 :: replicate 63 0) <= N.to_nat DAP_PACKET_SIZE)%nat)
  /\ outgoing (state_of (usbd_hid_set_report HID_REPORT_OUTPUT 0 (2 :: replicate 63 0)
                           USBD_HID_REQ_EP_INT st))
     = outgoing st.
Proof.
  cbn zeta.
  assert ((0 < free_sem (turn (deliver 0 powered)))%N) as Hf by (vm_compute; reflexivity).
  assert (2 <> ID_DAP_TransferAbort) as Hb by (vm_compute; lia).
  assert ((length (2 :: replicate 63 0) <= N.to_nat DAP_PACKET_SIZE)%nat) as Hl
    by (vm_compute; lia).
  split; [exact (conj ring_shape_info_answered
                   (conj slots_sized_info_answered (conj Hf (conj Hb Hl))))|].
  exact (proj1 (accepted_report_spares_waiting_slots _ 0 2 (replicate 63 0)
                  USBD_HID_REQ_EP_INT ring_shape_info_answered
                  slots_sized_info_answered Hf Hb Hl)).
Defined.


Lemma send_with_nothing_ready_adds_a_token_witness :
  (ring_inv powered /\ send_sem powered = 0%N)
  /\ (free_sem (state_of (hid_send_packet powered))
      + proc_sem (state_of (hid_send_packet powered))
      + send_sem (state_of (hid_send_packet powered)) = DAP_PACKET_COUNT + 1)%N.
Proof.
  assert (ring_inv powered) as Hi by (vm_compute; reflexivity).
  assert (send_sem powered = 0%N) as Hs by (vm_compute; reflexivity).
  split; [exact (conj Hi Hs)|].
  destruct (send_with_nothing_ready_adds_a_token powered Hi Hs) as (_ & _ & H & _).
  exact H.
Defined.

Lemma short_report_keeps_the_tail_witness :
  let st' :=
    state_of (usbd_hid_set_report HID_REPORT_OUTPUT 0 [5; 1] USBD_HID_REQ_EP_INT stale) in
  ((0 < free_sem stale)%N /\ 5 <> ID_DAP_TransferAbort
   /\ (N.to_nat (recv_idx stale) < length (USB_Request stale))%nat)
  /\ slot (USB_Request st') (recv_idx stale) !! 1%nat = Some 1
  /\ slot (USB_Request st') (recv_idx stale) !! 2%nat = Some 7.
Proof.
  cbn zeta.
  assert ((0 < free_sem stale)%N) as Hf by (vm_compute; reflexivity).
  assert (5 <> ID_DAP_TransferAbort) as Hb by (vm_compute; lia).
  assert ((N.to_nat (recv_idx stale) < length (USB_Request stale))%nat) as Hr
    by (vm_compute; lia).
  split; [exact (conj Hf (conj Hb Hr))|].
  split.
  - rewrite (proj1 (short_report_keeps_the_tail stale 0 5 [1] USBD_HID_REQ_EP_INT 1
                      Hf Hb Hr)) by (simpl; lia).
    reflexivity.
  - rewrite (proj2 (short_report_keeps_the_tail stale 0 5 [1] USBD_HID_REQ_EP_INT 2
                      Hf Hb Hr)) by (simpl; lia).
    vm_compute. reflexivity.
Defined.

Lemma reports_queue_in_arrival_order_witness :
  let bufs := [request 0; request 2] in
  (ring_shape powered /\ ring_inv powered /\ slots_sized powered
   /\ Forall full_report bufs /\ (N.of_nat (length bufs) <= free_sem powered)%N)
  /\ pending (deliver_all bufs powered).1 = [request 0; request 2]
  /\ (deliver_all bufs powered).2 = [].
Proof.
  cbn zeta.
  assert (ring_shape powered) as H1
    by (constructor; vm_compute; repeat split; first [reflexivity | discriminate]).
  assert (ring_inv powered) as H2 by (vm_compute; reflexivity).
  assert (slots_sized powered) as H3 by (repeat constructor).
  assert (Forall full_report [request 0; request 2]) as H4.
  { repeat constructor.
    - exists 0, (replicate 63 0). split; [reflexivity | vm_compute; lia].
    - exists 2, (replicate 63 0). split; [reflexivity | vm_compute; lia]. }
  assert ((N.of_nat (length [request 0; request 2]) <= free_sem powered)%N) as H5
    by (vm_compute; discriminate).
  split; [exact (conj H1 (conj H2 (conj H3 (conj H4 H5))))|].
  destruct (reports_queue_in_arrival_order _ powered H1 H2 H3 H4 H5) as (Hp & He & _).
  split; [|exact He]. rewrite Hp. vm_compute. reflexivity.
Defined.

Lemma ring_stays_in_shape_witness :
  ((0 < DAP_PACKET_COUNT < 4294967296)%N
   /\ sys_steps (power_on (tt : dap_env))
        (deliver_events 0 powered ++ turn_events (deliver 0 powered) ++ [])
        (turn (deliver 0 powered)))
  /\ ring_shape (turn (deliver 0 powered))
  /\ (length (pending (turn (deliver 0 powered)))
      + length (outgoing (turn (deliver 0 powered))) <= N.to_nat DAP_PACKET_COUNT)%nat.
Proof.
  assert ((0 < DAP_PACKET_COUNT < 4294967296)%N) as Hc by (vm_compute; split; reflexivity).
  assert (sys_steps (power_on (tt : dap_env))
            (deliver_events 0 powered ++ turn_events (deliver 0 powered) ++ [])
            (turn (deliver 0 powered))) as Hrun.
  { eapply steps_cons; [apply (deliver_step 0 powered)|].
    eapply steps_cons; [|apply steps_nil].
    apply turn_step. vm_compute. reflexivity. }
  split; [exact (conj Hc Hrun)|].
  destruct (@ring_stays_in_shape cmsis_dap tt _ _ Hc Hrun) as (H1 & _ & _ & _ & _ & _ & H7).
  exact (conj H1 H7).
Defined.

Lemma tokens_are_lost_only_by_discarding_witness :
  sys_step powered (deliver_events 0 powered) (deliver 0 powered)
  /\ token_sum (deliver 0 powered) = token_sum powered.
Proof.
  split; [exact (deliver_step 0 powered)|].
  destruct (tokens_are_lost_only_by_discarding _ _ _ (deliver_step 0 powered))
    as [H | (_ & H & _)]; [exact H|].
  vm_compute in H. discriminate H.
Defined.

End HidFacts.
